(** * scrape_gi_data.py: the glycemic-index table scraper

    A shallow embedding of [src/scrape_gi_data.py] and the properties of
    its pipeline: download, locate the table, extract header and row text,
    validate each row against [GIEntry], write [gi_data.csv].

    Python [str] is modelled by [string] (code points below 256), the
    dictionaries of the script by [gmap string _], the parsed document by
    a tree of tags and strings, and [main] by a small state-and-exception
    monad over the process' standard output and its output file. *)

From Stdlib Require Import ZArith String Ascii List Lia.
From stdpp Require Import base option list gmap strings fin_maps fin_sets.
Import ListNotations.
Local Open Scope string_scope.
Local Open Scope list_scope.

(** ** Text *)

Module Str.

(** [str.isspace] on one character, for code points below 256: TAB, LF,
    VT, FF, CR, the separators 0x1c-0x1f, SPACE, NEL and NBSP. *)
Definition isspace (c : ascii) : bool :=
  let n := nat_of_ascii c in
  (((9 <=? n) && (n <=? 13)) || ((28 <=? n) && (n <=? 32))
   || (n =? 133) || (n =? 160))%nat.

Definition is_empty (s : string) : bool :=
  match s with EmptyString => true | String _ _ => false end.

Fixpoint lstrip (s : string) : string :=
  match s with
  | EmptyString => EmptyString
  | String c s' => if isspace c then lstrip s' else s
  end.

Fixpoint rstrip (s : string) : string :=
  match s with
  | EmptyString => EmptyString
  | String c s' =>
      let r := rstrip s' in
      if isspace c && is_empty r then EmptyString else String c r
  end.

(** [s.strip()] *)
Definition strip (s : string) : string := rstrip (lstrip s).

(** every character of [s] is white space (true of the empty string) *)
Fixpoint blank (s : string) : bool :=
  match s with
  | EmptyString => true
  | String c s' => isspace c && blank s'
  end.

Fixpoint contains (p : ascii -> bool) (s : string) : bool :=
  match s with
  | EmptyString => false
  | String c s' => p c || contains p s'
  end.

(** [sep.join(parts)] *)
Fixpoint join (sep : string) (parts : list string) : string :=
  match parts with
  | [] => EmptyString
  | [x] => x
  | x :: rest => (x ++ sep ++ join sep rest)%string
  end.

Definition cat (parts : list string) : string := join EmptyString parts.

Definition LF : ascii := ascii_of_nat 10.
Definition CR : ascii := ascii_of_nat 13.
Definition DQUOTE : ascii := ascii_of_nat 34.
Definition COMMA : ascii := ascii_of_nat 44.

Definition is_linebreak (c : ascii) : bool :=
  Ascii.eqb c LF || Ascii.eqb c CR.

(** Number of lines of a text file read with universal newlines: every
    CR LF pair, lone CR and lone LF ends one line. *)
Fixpoint count_lines (s : string) : nat :=
  match s with
  | EmptyString => 0
  | String c s' =>
      if Ascii.eqb c CR then
        match s' with
        | String c' s'' =>
            if Ascii.eqb c' LF then S (count_lines s'') else S (count_lines s')
        | EmptyString => 1
        end
      else if Ascii.eqb c LF then S (count_lines s')
      else count_lines s'
  end.

(** [s[:n]] for [n >= 0] *)
Fixpoint take (n : nat) (s : string) : string :=
  match n, s with
  | S n', String c s' => String c (take n' s')
  | _, _ => EmptyString
  end.

End Str.

(** ** Row reconciliation (main, lines 97-102) *)

(** [data] after the [if len(data) < len(column_names) ... elif ...]
    statement: extended in place with empty strings, or sliced. *)
Definition reconcile (column_names data : list string) : list string :=
  if (length data <? length column_names)%nat then
    data ++ replicate (length column_names - length data) EmptyString
  else if (length column_names <? length data)%nat then
    firstn (length column_names) data
  else data.

(** ** Dictionaries *)

(** [dict(pairs)]: the pairs are inserted from left to right, so a later
    pair replaces the value of an earlier one with the same key. *)
Definition py_dict {V} (pairs : list (string * V)) : gmap string V :=
  foldl (fun d kv => <[kv.1 := kv.2]> d) ∅ pairs.

(** ** The parsed document (BeautifulSoup) *)

Module Bs4.

(** A node of the tree that [BeautifulSoup(text, 'html.parser')] builds:
    a tag with its attributes and children, or a run of text. *)
#[warnings="-register-all"] Inductive PageElement :=
| Tag (name : string) (attrs : gmap string string)
      (contents : list PageElement)
| NavigableString (text : string).

(** [element.descendants]: every node below [element], in document
    order. *)
Fixpoint descendants (e : PageElement) : list PageElement :=
  match e with
  | Tag _ _ contents => flat_map (fun c => c :: descendants c) contents
  | NavigableString _ => []
  end.

Definition is_tag (name : string) (e : PageElement) : bool :=
  match e with
  | Tag n _ _ => String.eqb n name
  | NavigableString _ => false
  end.

Definition has_attr (key value : string) (e : PageElement) : bool :=
  match e with
  | Tag _ attrs _ => bool_decide (attrs !! key = Some value)
  | NavigableString _ => false
  end.

(** [element.find_all(name)] *)
Definition find_all (name : string) (e : PageElement) : list PageElement :=
  List.filter (is_tag name) (descendants e).

(** [element.find(name)]: the first match, or [None] *)
Definition find (name : string) (e : PageElement) : option PageElement :=
  head (find_all name e).

(** [element.find(name, id=value)] *)
Definition find_by_id (name value : string) (e : PageElement)
  : option PageElement :=
  head (List.filter (fun t => is_tag name t && has_attr "id" value t)
          (descendants e)).

Definition strings (e : PageElement) : list string :=
  match e with
  | NavigableString s => [s]
  | Tag _ _ _ =>
      flat_map (fun d => match d with
                         | NavigableString s => [s]
                         | Tag _ _ _ => []
                         end) (descendants e)
  end.

(** [element.get_text(strip=True)]: every string below the element is
    stripped, the empty ones are dropped, the rest is concatenated. *)
Definition get_text_strip (e : PageElement) : string :=
  Str.cat (List.filter (fun s => negb (Str.is_empty s))
             (map Str.strip (strings e))).

End Bs4.

(** ** The schema (pydantic) *)

(** The values a keyword argument of [GIEntry(...)] is modelled to take. *)
Inductive pyval :=
| PyStr (s : string)
| PyNone.

Record GIEntry := {
  food_name : string;
  gi : string;
  manufacturer : string;
  category : string;
  country : string;
  serving_size : string;
  carbs_portion : string;
  gl : string;
  reference : string;
  subjects_type : string;
  time : string;
  subjects_number : string;
  year : string
}.

(** The aliases of the thirteen fields, in declaration order. *)
Definition aliases : list string :=
  [ "Food Name"; "GI"; "Food Manufacturer"; "Product Category";
    "Country of food production"; "Serving Size (g)";
    "Carbohydrate portion (g) or Average Carbohydrate portion (g)";
    "GL"; "Reference:"; "Subjects type"; "Time"; "Subjects Number";
    "Year of test" ].

(** The [mode="before"] validator of every field. *)
Definition empty_to_none (v : pyval) : pyval :=
  match v with
  | PyStr s => if Str.is_empty (Str.strip s) then PyStr "" else v
  | PyNone => v
  end.

Inductive error_type := missing | string_type.

(** One entry per failing field: its alias and what is wrong with it. *)
Definition ValidationError : Type := list (string * error_type).

(** One field of the model: looked up by alias, passed through
    [empty_to_none], then required to be a [str]. *)
Definition validate_field (data : gmap string pyval) (alias : string)
  : error_type + string :=
  match data !! alias with
  | None => inl missing
  | Some v =>
      match empty_to_none v with
      | PyStr s => inr s
      | PyNone => inl string_type
      end
  end.

Definition field_errors (data : gmap string pyval) : ValidationError :=
  omap (fun a => match validate_field data a with
                 | inl e => Some (a, e)
                 | inr _ => None
                 end) aliases.

(** [GIEntry] called with the keyword arguments [data]: keys that are no
    alias are ignored; every field is validated and the errors of all of
    them are reported together. *)
Definition GIEntry_init (data : gmap string pyval)
  : ValidationError + GIEntry :=
  match validate_field data "Food Name",
        validate_field data "GI",
        validate_field data "Food Manufacturer",
        validate_field data "Product Category",
        validate_field data "Country of food production",
        validate_field data "Serving Size (g)",
        validate_field data
          "Carbohydrate portion (g) or Average Carbohydrate portion (g)",
        validate_field data "GL",
        validate_field data "Reference:",
        validate_field data "Subjects type",
        validate_field data "Time",
        validate_field data "Subjects Number",
        validate_field data "Year of test"
  with
  | inr v1, inr v2, inr v3, inr v4, inr v5, inr v6, inr v7, inr v8,
    inr v9, inr v10, inr v11, inr v12, inr v13 =>
      inr {| food_name := v1; gi := v2; manufacturer := v3; category := v4;
             country := v5; serving_size := v6; carbs_portion := v7;
             gl := v8; reference := v9; subjects_type := v10; time := v11;
             subjects_number := v12; year := v13 |}
  | _, _, _, _, _, _, _, _, _, _, _, _, _ => inl (field_errors data)
  end.

(** [entry.model_dump(by_alias=True)] *)
Definition model_dump (e : GIEntry) : gmap string string :=
  py_dict
    [ ("Food Name", food_name e); ("GI", gi e);
      ("Food Manufacturer", manufacturer e);
      ("Product Category", category e);
      ("Country of food production", country e);
      ("Serving Size (g)", serving_size e);
      ("Carbohydrate portion (g) or Average Carbohydrate portion (g)",
       carbs_portion e);
      ("GL", gl e); ("Reference:", reference e);
      ("Subjects type", subjects_type e); ("Time", time e);
      ("Subjects Number", subjects_number e); ("Year of test", year e) ].

(** ** The csv module, excel dialect *)

Module Csv.

(** characters that force a field into quotes: the delimiter, the quote
    character and the characters of the line terminator *)
Definition special (c : ascii) : bool :=
  Ascii.eqb c Str.COMMA || Ascii.eqb c Str.DQUOTE
  || Ascii.eqb c Str.CR || Ascii.eqb c Str.LF.

(** [doublequote]: a quote character inside a field is written twice *)
Fixpoint double_quotes (s : string) : string :=
  match s with
  | EmptyString => EmptyString
  | String c s' =>
      if Ascii.eqb c Str.DQUOTE then String c (String c (double_quotes s'))
      else String c (double_quotes s')
  end.

(** one field under [QUOTE_MINIMAL] *)
Definition field (s : string) : string :=
  if Str.contains special s then
    String Str.DQUOTE (double_quotes s ++ String Str.DQUOTE EmptyString)
  else s.

Definition lineterminator : string :=
  String Str.CR (String Str.LF EmptyString).

(** the text of one record; a record of one empty field is written as a
    pair of quotes *)
Definition record (row : list string) : string :=
  let body := Str.join (String Str.COMMA EmptyString) (map field row) in
  ((if (0 <? length row)%nat && Str.is_empty body
    then String Str.DQUOTE (String Str.DQUOTE EmptyString)
    else body) ++ lineterminator)%string.

(** [DictWriter._dict_to_list] with [extrasaction='raise'] and
    [restval='']: [inl] carries the keys that are no field name. *)
Definition dict_to_list (fieldnames : list string)
    (rowdict : gmap string string) : gset string + list string :=
  let wrong_fields := dom rowdict ∖ list_to_set fieldnames in
  if decide (wrong_fields = ∅)
  then inr (map (fun key => default EmptyString (rowdict !! key)) fieldnames)
  else inl wrong_fields.

End Csv.

(** ** The process: standard output, the output file, exceptions *)

Inductive exn :=
| HTTPStatusError (status_code : nat)
| TransportError (e : string)
| OSError
| ValueError (wrong_fields : gset string).

(** One constructor per [print] call of [main], carrying the values its
    format string interpolates. *)
Inductive Msg :=
| Downloading (url : string)
| HttpErrorOccurred (e : exn)
| AnErrorOccurred (e : exn)
| CouldNotFindTable
| FoundOtherTables (n : nat)
| NoThead
| FoundColumns (column_names : list string)
| NoTbody
| ProcessingRows (n : nat)
| ValidationFailedForRow (context : string)
| ValidationErrorText (e : ValidationError)
| NoValidEntriesFound
| SuccessfullySaved (n : nat) (path : string)
| FailedToSaveCsv (e : exn).

(** What the run has done so far to the outside: the lines printed and
    the content of [gi_data.csv] ([None]: the run has not created it). *)
Record Proc := {
  stdout : list Msg;
  gi_data_csv : option string
}.

Inductive outcome (A : Type) :=
| Return (a : A)
| Raise (e : exn)
| SystemExit (code : Z).
Arguments Return {A} a.
Arguments Raise {A} e.
Arguments SystemExit {A} code.

Definition Py (A : Type) : Type := Proc -> outcome A * Proc.

#[global] Instance Py_ret : MRet Py := fun A a p => (Return a, p).

#[global] Instance Py_bind : MBind Py := fun A B k c p =>
  match c p with
  | (Return a, p') => k a p'
  | (Raise e, p') => (Raise e, p')
  | (SystemExit code, p') => (SystemExit code, p')
  end.

Definition print (m : Msg) : Py unit := fun p =>
  (Return tt, {| stdout := stdout p ++ [m]; gi_data_csv := gi_data_csv p |}).

Definition raise {A} (e : exn) : Py A := fun p => (Raise e, p).

(** [sys.exit(code)]: [SystemExit] is no [Exception], so no handler of
    [main] catches it. *)
Definition sys_exit {A} (code : Z) : Py A := fun p => (SystemExit code, p).

(** [try: body  except Exception as e: handler(e)] *)
Definition try_except {A} (body : Py A) (handler : exn -> Py A) : Py A :=
  fun p =>
    match body p with
    | (Raise e, p') => handler e p'
    | r => r
    end.

(** [for x in xs: acc = body(acc, x)] *)
Fixpoint for_each {A S} (body : S -> A -> Py S) (acc : S) (xs : list A)
  : Py S :=
  match xs with
  | [] => mret acc
  | x :: rest => acc' ← body acc x; for_each body acc' rest
  end.

(** ** The outside world *)

Record Response := {
  status_code : nat;
  (** [BeautifulSoup(response.text, 'html.parser')]; the parser itself
      is not modelled *)
  soup : Bs4.PageElement
}.

Record World := {
  (** what [client.get(url)] does: raise, or return a response *)
  http_get : exn + Response;
  (** [open(output_csv, 'w')] raises *)
  open_fails : bool;
  (** the number of characters the output file can take before a write
      raises; [None]: no limit *)
  disk_space : option nat
}.

Definition client_get (w : World) : Py Response :=
  match http_get w with
  | inl e => raise e
  | inr r => mret r
  end.

Definition raise_for_status (r : Response) : Py unit :=
  if ((200 <=? status_code r) && (status_code r <? 300))%nat then mret tt
  else raise (HTTPStatusError (status_code r)).

(** [open(output_csv, 'w', ...)]: creates or truncates the file *)
Definition open_w (w : World) : Py unit := fun p =>
  if open_fails w then (Raise OSError, p)
  else (Return tt, {| stdout := stdout p; gi_data_csv := Some EmptyString |}).

(** [f.write(text)]: when the text does not fit, what fits is written and
    the write raises *)
Definition f_write (w : World) (text : string) : Py unit := fun p =>
  match gi_data_csv p with
  | None => (Raise OSError, p)
  | Some content =>
      let fits :=
        match disk_space w with
        | None => true
        | Some n => (String.length content + String.length text <=? n)%nat
        end in
      if fits then
        (Return tt,
         {| stdout := stdout p;
            gi_data_csv := Some (content ++ text)%string |})
      else
        (Raise OSError,
         {| stdout := stdout p;
            gi_data_csv :=
              Some (content ++
                    Str.take (default 0%nat (disk_space w)
                              - String.length content) text)%string |})
  end.

(** [DictWriter.writerow(rowdict)] *)
Definition writerow (w : World) (fieldnames : list string)
    (rowdict : gmap string string) : Py unit :=
  match Csv.dict_to_list fieldnames rowdict with
  | inl wrong_fields => raise (ValueError wrong_fields)
  | inr row => f_write w (Csv.record row)
  end.

(** [DictWriter.writeheader()] *)
Definition writeheader (w : World) (fieldnames : list string) : Py unit :=
  writerow w fieldnames (py_dict (zip fieldnames fieldnames)).

(** [DictWriter.writerows(rowdicts)] *)
Definition writerows (w : World) (fieldnames : list string)
    (rowdicts : list (gmap string string)) : Py unit :=
  for_each (fun _ rowdict => writerow w fieldnames rowdict) tt rowdicts.

(** ** main *)

Definition url : string := "https://glycemicindex.com/gi-search/".
Definition output_csv : string := "gi_data.csv".

(** The text that identifies a rejected row in the log:
    [data[0] if data else 'Unknown']. *)
Definition row_context (data : list string) : string :=
  match data with
  | d :: _ => d
  | [] => "Unknown"
  end.

(** [row_dict = dict(zip(column_names, data))] *)
Definition row_dict (column_names data : list string) : gmap string pyval :=
  py_dict (zip column_names (map PyStr data)).

(** The body of [for row in rows:] (lines 88-113). Every element that
    [find_all] returns is a tag, so [hasattr(row, "find_all")] holds. *)
Definition process_row (column_names : list string)
    (entries : list (gmap string string)) (row : Bs4.PageElement)
  : Py (list (gmap string string)) :=
  let cells := Bs4.find_all "td" row in
  match cells with
  | [] => mret entries
  | _ :: _ =>
      let data := map Bs4.get_text_strip cells in
      let data := reconcile column_names data in
      match GIEntry_init (row_dict column_names data) with
      | inr entry => mret (entries ++ [model_dump entry])
      | inl e =>
          print (ValidationFailedForRow (row_context data));;
          print (ValidationErrorText e);;
          mret entries
      end
  end.

Definition main (w : World) : Py unit :=
  print (Downloading url);;
  response ←
    try_except
      (response ← client_get w;
       raise_for_status response;;
       mret response)
      (fun e =>
         match e with
         | HTTPStatusError _ => print (HttpErrorOccurred e);; sys_exit 1
         | _ => print (AnErrorOccurred e);; sys_exit 1
         end);
  let soup := soup response in
  match Bs4.find_by_id "table" "tablepress-1" soup with
  | None =>
      print CouldNotFindTable;;
      let tables := Bs4.find_all "table" soup in
      match tables with
      | _ :: _ => print (FoundOtherTables (length tables))
      | [] => mret tt
      end;;
      sys_exit 1
  | Some table =>
      match Bs4.find "thead" table with
      | None => print NoThead;; sys_exit 1
      | Some thead =>
          let header_cells := Bs4.find_all "th" thead in
          let column_names := map Bs4.get_text_strip header_cells in
          print (FoundColumns column_names);;
          match Bs4.find "tbody" table with
          | None => print NoTbody;; sys_exit 1
          | Some tbody =>
              let rows := Bs4.find_all "tr" tbody in
              print (ProcessingRows (length rows));;
              entries ← for_each (process_row column_names) [] rows;
              match entries with
              | [] => print NoValidEntriesFound;; sys_exit 0
              | _ :: _ =>
                  try_except
                    (open_w w;;
                     writeheader w column_names;;
                     writerows w column_names entries;;
                     print (SuccessfullySaved (length entries) output_csv))
                    (fun e => print (FailedToSaveCsv e);; sys_exit 1)
              end
          end
      end
  end.

(** The exit status of the process: 0 when [main] returns, the argument
    of [sys.exit], 1 for an exception nobody caught. *)
Definition exit_status {A} (o : outcome A) : Z :=
  match o with
  | Return _ => 0
  | SystemExit code => code
  | Raise _ => 1
  end.

Definition start : Proc := {| stdout := []; gi_data_csv := None |}.

(** One run of the script in the world [w]. *)
Definition run (w : World) : outcome unit * Proc := main w start.

(** ** Pure views of the row loop *)

(** The record a body row contributes, if any: [None] for a row without
    [td] cells and for a row that [GIEntry] rejects. *)
Definition accepted_entry (column_names : list string)
    (row : Bs4.PageElement) : option GIEntry :=
  match Bs4.find_all "td" row with
  | [] => None
  | cells =>
      let data := reconcile column_names (map Bs4.get_text_strip cells) in
      match GIEntry_init (row_dict column_names data) with
      | inr entry => Some entry
      | inl _ => None
      end
  end.

(** What the loop prints for one row. *)
Definition row_log (column_names : list string) (row : Bs4.PageElement)
  : list Msg :=
  match Bs4.find_all "td" row with
  | [] => []
  | cells =>
      let data := reconcile column_names (map Bs4.get_text_strip cells) in
      match GIEntry_init (row_dict column_names data) with
      | inr _ => []
      | inl e => [ValidationFailedForRow (row_context data);
                  ValidationErrorText e]
      end
  end.

(** The run reaches the row loop with these column names and body rows:
    the page was fetched with a 2xx status, the table, its [thead] and
    its [tbody] were found. *)
Definition scraped (w : World) (column_names : list string)
    (rows : list Bs4.PageElement) : Prop :=
  exists response table thead tbody,
    http_get w = inr response /\
    (200 <= status_code response < 300)%nat /\
    Bs4.find_by_id "table" "tablepress-1" (soup response) = Some table /\
    Bs4.find "thead" table = Some thead /\
    Bs4.find "tbody" table = Some tbody /\
    column_names = map Bs4.get_text_strip (Bs4.find_all "th" thead) /\
    rows = Bs4.find_all "tr" tbody.

(** The values [DictWriter] writes for one record, in column order. *)
Definition csv_values (column_names : list string)
    (rowdict : gmap string string) : list string :=
  map (fun key => default EmptyString (rowdict !! key)) column_names.

(** The complete text of [gi_data.csv]: the header record, then one
    record per entry. *)
Definition csv_text (column_names : list string)
    (entries : list (gmap string string)) : string :=
  Str.cat (Csv.record column_names
           :: map (fun e => Csv.record (csv_values column_names e)) entries).

Definition no_linebreak (s : string) : Prop :=
  Str.contains Str.is_linebreak s = false.

(** The file system lets the whole of [text] be written. *)
Definition fits (w : World) (text : string) : bool :=
  match disk_space w with
  | None => true
  | Some n => (String.length text <=? n)%nat
  end.

(** The last statement of [main]: the [try] block that writes the file. *)
Definition save_csv (w : World) (column_names : list string)
    (entries : list (gmap string string)) : Py unit :=
  try_except
    (open_w w;;
     writeheader w column_names;;
     writerows w column_names entries;;
     print (SuccessfullySaved (length entries) output_csv))
    (fun e => print (FailedToSaveCsv e);; sys_exit 1).

(** The run ends with exit status 1 and has not created the output
    file. *)
Definition aborted_without_output (w : World) : Prop :=
  exit_status (run w).1 = 1%Z /\ gi_data_csv (run w).2 = None.

(** ** Predicates used to state properties of the text and of the log *)

(** [s] does not begin with white space (true of the empty string). *)
Definition starts_ok (s : string) : bool :=
  match s with
  | EmptyString => true
  | String c _ => negb (Str.isspace c)
  end.

(** [s] neither begins nor ends with white space. *)
Definition stripped (s : string) : Prop :=
  starts_ok s = true /\ Str.rstrip s = s.

(** The row has at least one [td] cell. *)
Definition has_cells (row : Bs4.PageElement) : bool :=
  match Bs4.find_all "td" row with
  | [] => false
  | _ :: _ => true
  end.

(** The message is the first line of a validation-failure report. *)
Definition is_validation_failure (m : Msg) : bool :=
  match m with
  | ValidationFailedForRow _ => true
  | _ => false
  end.

(** ** Sample pages *)

Module Sample.
Import Bs4.

Definition text_tag (name s : string) : PageElement :=
  Tag name ∅ [NavigableString s].

Definition tr (cells : list string) : PageElement :=
  Tag "tr" ∅ (map (text_tag "td") cells).

Definition thead (labels : list string) : PageElement :=
  Tag "thead" ∅ [Tag "tr" ∅ (map (text_tag "th") labels)].

Definition tbody (rows : list (list string)) : PageElement :=
  Tag "tbody" ∅ (map tr rows).

Definition table (id : string) (parts : list PageElement) : PageElement :=
  Tag "table" {[ "id" := id ]} parts.

Definition document (body : list PageElement) : PageElement :=
  Tag "[document]" ∅ [Tag "html" ∅ [Tag "body" ∅ body]].

(** A world that serves the page with status 200 and whose file system
    never fails. *)
Definition page (body : list PageElement) : World :=
  {| http_get := inr {| status_code := 200; soup := document body |};
     open_fails := false;
     disk_space := None |}.

Definition apple : list string :=
  ["Apple"; "40"; "Acme"; "Fruit"; "NZ"; "120"; "15"; "6"; "Ref 1";
   "Healthy"; "2h"; "10"; "1999"].

(** a first cell whose text runs over two lines *)
Definition apple_pie : list string :=
  String "A" (String Str.LF "B") :: tl apple.

Definition gi_table (labels : list string) (rows : list (list string))
  : PageElement :=
  table "tablepress-1" [thead labels; tbody rows].

Definition apple_entry : GIEntry :=
  {| food_name := "Apple"; gi := "40"; manufacturer := "Acme";
     category := "Fruit"; country := "NZ"; serving_size := "120";
     carbs_portion := "15"; gl := "6"; reference := "Ref 1";
     subjects_type := "Healthy"; time := "2h"; subjects_number := "10";
     year := "1999" |}.

(** the record of a row that has a name and nothing else *)
Definition pear_entry : GIEntry :=
  {| food_name := "Pear"; gi := ""; manufacturer := ""; category := "";
     country := ""; serving_size := ""; carbs_portion := ""; gl := "";
     reference := ""; subjects_type := ""; time := "";
     subjects_number := ""; year := "" |}.

End Sample.

(** ** Facts about text *)

Section StrFacts.

Lemma rstrip_lstrip_empty s :
  Str.is_empty (Str.rstrip (Str.lstrip s)) = Str.blank s.
Proof.
  induction s as [|c s IH]; simpl; [done|].
  destruct (Str.isspace c) eqn:Hc; simpl; [exact IH|].
  by rewrite Hc.
Qed.

(** [not v.strip()] holds exactly of the strings made of white space. *)
Lemma strip_empty_blank s : Str.is_empty (Str.strip s) = Str.blank s.
Proof. apply rstrip_lstrip_empty. Qed.

Lemma app_empty_l (b : string) : ("" ++ b)%string = b.
Proof. reflexivity. Qed.

Lemma app_String c (a b : string) :
  (String c a ++ b)%string = String c (a ++ b).
Proof. reflexivity. Qed.

Lemma string_app_nil_r (s : string) : (s ++ "")%string = s.
Proof.
  induction s as [|c s IH]; [done|]. by rewrite app_String, IH.
Qed.

Lemma string_app_assoc (a b c : string) :
  ((a ++ b) ++ c)%string = (a ++ (b ++ c))%string.
Proof.
  induction a as [|x a IH]; [done|]. by rewrite !app_String, IH.
Qed.

Lemma string_length_app (a b : string) :
  String.length (a ++ b) = (String.length a + String.length b)%nat.
Proof.
  induction a as [|x a IH]; [done|]. rewrite app_String. simpl. by rewrite IH.
Qed.

Lemma take_app n (a b : string) :
  (String.length a <= n)%nat ->
  Str.take n (a ++ b) = (a ++ Str.take (n - String.length a) b)%string.
Proof.
  revert n; induction a as [|c a IH]; intros n H.
  - rewrite !app_empty_l. simpl. by rewrite Nat.sub_0_r.
  - simpl in H. destruct n as [|n]; [lia|].
    rewrite !app_String. simpl. f_equal. apply IH. lia.
Qed.

Lemma take_app_short n (a b : string) :
  (n <= String.length a)%nat -> Str.take n (a ++ b) = Str.take n a.
Proof.
  revert n; induction a as [|c a IH]; intros n H; simpl in H.
  - by replace n with 0%nat by lia.
  - destruct n as [|n]; [done|].
    rewrite app_String. simpl. f_equal. apply IH. lia.
Qed.

Lemma cat_cons (x : string) xs :
  Str.cat (x :: xs) = (x ++ Str.cat xs)%string.
Proof.
  unfold Str.cat. destruct xs as [|y ys]; simpl; [|done].
  by rewrite string_app_nil_r.
Qed.

End StrFacts.

(** ** Facts about dictionaries *)

Section DictFacts.
Context {V : Type}.
Implicit Types (l : list (string * V)) (k : string) (v : V).

Lemma py_dict_snoc l k v : py_dict (l ++ [(k, v)]) = <[k := v]> (py_dict l).
Proof. unfold py_dict. by rewrite foldl_app. Qed.

(** The keys of [dict(pairs)] are the first components of the pairs. *)
Lemma dom_py_dict l : dom (py_dict l) = list_to_set l.*1.
Proof.
  induction l as [|[k v] l IH] using rev_ind; [apply dom_empty_L|].
  rewrite py_dict_snoc, dom_insert_L, IH, fmap_app, list_to_set_app_L.
  simpl. rewrite union_empty_r_L. apply (comm_L (∪)).
Qed.

Lemma py_dict_lookup_None l k : k ∉ l.*1 -> py_dict l !! k = None.
Proof.
  intros H. apply not_elem_of_dom. rewrite dom_py_dict. set_solver.
Qed.

(** Later pairs win: the value under [k] is that of the last pair whose
    key is [k]. *)
Lemma py_dict_lookup_last l j k v :
  l !! j = Some (k, v) ->
  (forall j' v', (j < j')%nat -> l !! j' <> Some (k, v')) ->
  py_dict l !! k = Some v.
Proof.
  revert j. induction l as [|[k' v'] l IH] using rev_ind; intros j Hj Hlast.
  - done.
  - rewrite py_dict_snoc.
    destruct (decide (j = length l)) as [->|Hne].
    + rewrite list_lookup_middle in Hj by done.
      injection Hj as -> ->. apply lookup_insert_eq.
    + assert (j < length l)%nat as Hlt.
      { apply lookup_lt_Some in Hj. rewrite length_app in Hj. simpl in Hj. lia. }
      rewrite lookup_app_l in Hj by done.
      assert (k' <> k) as Hk.
      { intros ->. apply (Hlast (length l) v'); [done|].
        by rewrite list_lookup_middle. }
      rewrite lookup_insert_ne by done.
      apply (IH j); [done|].
      intros j' v'' Hjj' Hl. apply (Hlast j' v''); [done|].
      rewrite lookup_app_l; [done|]. by apply lookup_lt_Some in Hl.
Qed.

(** When every value is a function of its key, so is every lookup. *)
Lemma py_dict_lookup_fun (f : string -> V) l k :
  (forall k' v', (k', v') ∈ l -> v' = f k') ->
  k ∈ l.*1 -> py_dict l !! k = Some (f k).
Proof.
  induction l as [|[k' v'] l IH] using rev_ind; intros Hf Hin.
  - by apply elem_of_nil in Hin.
  - rewrite py_dict_snoc. destruct (decide (k' = k)) as [->|Hne].
    + rewrite lookup_insert_eq. f_equal. apply Hf.
      apply elem_of_app. right. apply list_elem_of_here.
    + rewrite lookup_insert_ne by done. apply IH.
      * intros k'' v'' H. apply Hf. apply elem_of_app. by left.
      * rewrite fmap_app in Hin. apply elem_of_app in Hin as [H|H]; [done|].
        apply list_elem_of_singleton in H. simpl in H. congruence.
Qed.

(** With distinct keys every pair is found. *)
Lemma py_dict_lookup_NoDup l k v :
  NoDup l.*1 -> (k, v) ∈ l -> py_dict l !! k = Some v.
Proof.
  intros Hnd Hin. apply list_elem_of_lookup in Hin as [j Hj].
  apply (py_dict_lookup_last l j); [done|].
  intros j' v' Hlt Hj'.
  assert (l.*1 !! j = Some k) by (by rewrite list_lookup_fmap, Hj).
  assert (l.*1 !! j' = Some k) by (by rewrite list_lookup_fmap, Hj').
  pose proof (NoDup_lookup _ _ _ _ Hnd H H0). lia.
Qed.

End DictFacts.

(** ** Reconciliation *)

Lemma reconcile_length column_names data :
  length (reconcile column_names data) = length column_names.
Proof.
  unfold reconcile.
  destruct (Nat.ltb_spec (length data) (length column_names)).
  - rewrite length_app, length_replicate. lia.
  - destruct (Nat.ltb_spec (length column_names) (length data)).
    + rewrite length_firstn. lia.
    + lia.
Qed.

(** C1. Every reconciled row has as many entries as there are header
    columns: a row with fewer cells than headers is the row followed by
    empty strings up to the header count, a row with more cells than
    headers is its first header-count cells. *)
Theorem reconcile_pads_or_truncates (column_names data : list string) :
  length (reconcile column_names data) = length column_names /\
  ((length data < length column_names)%nat ->
   reconcile column_names data =
     data ++ replicate (length column_names - length data) EmptyString) /\
  ((length column_names < length data)%nat ->
   reconcile column_names data = firstn (length column_names) data).
Proof.
  split; [apply reconcile_length|]. unfold reconcile. split; intros H.
  - by destruct (Nat.ltb_spec (length data) (length column_names)); [|lia].
  - destruct (Nat.ltb_spec (length data) (length column_names)); [lia|].
    by destruct (Nat.ltb_spec (length column_names) (length data)); [|lia].
Qed.

Lemma reconcile_pads_or_truncates_witness :
  reconcile ["Food Name"; "GI"; "GL"] ["Apple"] = ["Apple"; ""; ""] /\
  reconcile ["Food Name"; "GI"] ["Apple"; "40"; "6"; "x"] = ["Apple"; "40"].
Proof.
  split.
  - apply (proj1 (proj2 (reconcile_pads_or_truncates
                           ["Food Name"; "GI"; "GL"] ["Apple"]))).
    simpl. lia.
  - apply (proj2 (proj2 (reconcile_pads_or_truncates
                           ["Food Name"; "GI"] ["Apple"; "40"; "6"; "x"]))).
    simpl. lia.
Defined.

(** ** The header-to-value mapping *)

Lemma row_dict_absent column_names data label :
  label ∉ column_names -> row_dict column_names data !! label = None.
Proof.
  intros H. apply py_dict_lookup_None. intros Hin. apply H.
  apply list_elem_of_fmap in Hin as [[k v] [-> Hin]].
  apply list_elem_of_lookup in Hin as [i Hi].
  apply lookup_zip_with_Some in Hi as (x & y & Heq & Hx & _).
  injection Heq as -> _. apply list_elem_of_lookup. eauto.
Qed.

(** C7. The value the mapping holds under a label is the value of the
    rightmost column that carries the label: when two header columns
    have the same label, the later one wins. *)
Theorem row_dict_later_duplicate_wins
    (column_names data : list string) (label value : string) (j : nat) :
  column_names !! j = Some label ->
  reconcile column_names data !! j = Some value ->
  (forall j', (j < j')%nat -> column_names !! j' <> Some label) ->
  row_dict column_names (reconcile column_names data) !! label
  = Some (PyStr value).
Proof.
  intros Hlabel Hvalue Hlast. unfold row_dict.
  apply (py_dict_lookup_last _ j).
  - apply lookup_zip_with_Some. exists label, (PyStr value).
    split; [done|]. split; [done|]. by rewrite list_lookup_fmap, Hvalue.
  - intros j' v' Hlt Hj'.
    apply lookup_zip_with_Some in Hj' as (x & y & Heq & Hx & _).
    injection Heq as -> _. by apply (Hlast j').
Qed.

Lemma row_dict_later_duplicate_wins_witness :
  row_dict ["GI"; "GI"; "Food Name"]
    (reconcile ["GI"; "GI"; "Food Name"] ["40"; "55"; "Apple"]) !! "GI"
  = Some (PyStr "55").
Proof.
  apply (row_dict_later_duplicate_wins
           ["GI"; "GI"; "Food Name"] ["40"; "55"; "Apple"] "GI" "55" 1).
  - reflexivity.
  - reflexivity.
  - intros j' Hlt. destruct j' as [|[|[|j']]]; try lia; discriminate.
Defined.

(** ** The schema *)

Lemma validate_field_inr data alias s :
  validate_field data alias = inr s ->
  exists raw, data !! alias = Some (PyStr raw) /\
              s = if Str.blank raw then EmptyString else raw.
Proof.
  unfold validate_field. destruct (data !! alias) as [[raw|]|]; try done.
  simpl. rewrite strip_empty_blank. intros H. exists raw. split; [done|].
  destruct (Str.blank raw); congruence.
Qed.

Lemma validate_field_missing data alias :
  data !! alias = None -> validate_field data alias = inl missing.
Proof. unfold validate_field. by intros ->. Qed.

(** A model is built only when every field validates, and then from the
    validated values. *)
Lemma GIEntry_init_inr data entry :
  GIEntry_init data = inr entry ->
  Forall2 (fun alias value => validate_field data alias = inr value)
    aliases
    [food_name entry; gi entry; manufacturer entry; category entry;
     country entry; serving_size entry; carbs_portion entry; gl entry;
     reference entry; subjects_type entry; time entry;
     subjects_number entry; year entry].
Proof.
  unfold GIEntry_init. intros H.
  repeat match type of H with
         | context [match validate_field data ?a with _ => _ end] =>
             destruct (validate_field data a) eqn:?; try discriminate H
         end.
  injection H as <-. simpl. unfold aliases.
  repeat (constructor; [assumption|]). constructor.
Qed.

Lemma GIEntry_init_missing data alias :
  alias ∈ aliases -> data !! alias = None ->
  exists e, GIEntry_init data = inl e.
Proof.
  intros Hin Hnone. apply validate_field_missing in Hnone.
  unfold aliases in Hin. unfold GIEntry_init.
  repeat (apply elem_of_cons in Hin as [->|Hin];
          [rewrite Hnone;
           repeat match goal with
                  | |- context [match validate_field data ?a with _ => _ end] =>
                      destruct (validate_field data a)
                  end; eauto|]).
  by apply elem_of_nil in Hin.
Qed.

Lemma model_dump_lookup entry :
  Forall2 (fun alias value => model_dump entry !! alias = Some value)
    aliases
    [food_name entry; gi entry; manufacturer entry; category entry;
     country entry; serving_size entry; carbs_portion entry; gl entry;
     reference entry; subjects_type entry; time entry;
     subjects_number entry; year entry].
Proof.
  unfold aliases, model_dump.
  repeat (constructor;
          [apply py_dict_lookup_NoDup;
           [apply (bool_decide_unpack _); by vm_compute
           |repeat first [apply list_elem_of_here
                         |apply list_elem_of_further]]|]).
  constructor.
Qed.

Lemma model_dump_dom entry : dom (model_dump entry) = list_to_set aliases.
Proof. unfold model_dump. by rewrite dom_py_dict. Qed.

(** Every field of a validated record comes from a string of the input
    and holds it with blank text replaced by the empty string. *)
Lemma validated_fields (data : gmap string pyval) (entry : GIEntry) :
  GIEntry_init data = inr entry ->
  forall alias, alias ∈ aliases ->
    exists raw,
      data !! alias = Some (PyStr raw) /\
      model_dump entry !! alias
      = Some (if Str.blank raw then EmptyString else raw).
Proof.
  intros Hinit alias Hin.
  pose proof (GIEntry_init_inr _ _ Hinit) as Hfields.
  pose proof (model_dump_lookup entry) as Hdump.
  apply list_elem_of_lookup in Hin as [i Hi].
  destruct (Forall2_lookup_l _ _ _ _ _ Hfields Hi) as (value & Hvalue & Hok).
  pose proof (Forall2_lookup_lr _ _ _ _ _ _ Hdump Hi Hvalue) as Hlook.
  apply validate_field_inr in Hok as (raw & Hraw & ->).
  exists raw. by split.
Qed.

(** C2. A record that validation produces has every one of the thirteen
    schema fields, each holding a string that comes from a string of the
    input; a field whose input text is empty or white space only holds
    the empty string, any other field holds its input text. *)
Theorem validated_record_fields_present_and_normalised
    (data : gmap string pyval) (entry : GIEntry) :
  GIEntry_init data = inr entry ->
  dom (model_dump entry) = list_to_set aliases /\
  forall alias, alias ∈ aliases ->
    exists raw,
      data !! alias = Some (PyStr raw) /\
      model_dump entry !! alias
      = Some (if Str.blank raw then EmptyString else raw).
Proof.
  intros Hinit. split; [apply model_dump_dom | by apply validated_fields].
Qed.

Lemma validated_record_fields_present_and_normalised_witness :
  dom (model_dump Sample.pear_entry) = list_to_set aliases /\
  forall alias, alias ∈ aliases ->
    exists raw,
      row_dict aliases (reconcile aliases ["Pear"; "  "]) !! alias
      = Some (PyStr raw) /\
      model_dump Sample.pear_entry !! alias
      = Some (if Str.blank raw then EmptyString else raw).
Proof.
  apply (validated_record_fields_present_and_normalised
           (row_dict aliases (reconcile aliases ["Pear"; "  "]))
           Sample.pear_entry).
  vm_compute. reflexivity.
Defined.

(** ** The row loop *)

Lemma proc_eta p :
  {| stdout := stdout p; gi_data_csv := gi_data_csv p |} = p.
Proof. by destruct p. Qed.

(** One iteration never leaves the loop: it returns, with the accepted
    record appended, and touches nothing but the standard output. *)
Lemma process_row_spec column_names entries row p :
  process_row column_names entries row p =
  (Return (entries ++
           option_list (model_dump <$> accepted_entry column_names row)),
   {| stdout := stdout p ++ row_log column_names row;
      gi_data_csv := gi_data_csv p |}).
Proof.
  unfold process_row, accepted_entry, row_log.
  destruct (Bs4.find_all "td" row) as [|c cells].
  - simpl. by rewrite !app_nil_r, proc_eta.
  - destruct (GIEntry_init _) as [e|entry]; simpl.
    + unfold mbind, Py_bind, print, mret, Py_ret. simpl.
      by rewrite app_nil_r, <- app_assoc.
    + unfold mret, Py_ret. by rewrite app_nil_r, proc_eta.
Qed.

Lemma for_each_process_row column_names rows entries p :
  for_each (process_row column_names) entries rows p =
  (Return (entries ++
           map model_dump (omap (accepted_entry column_names) rows)),
   {| stdout := stdout p ++ flat_map (row_log column_names) rows;
      gi_data_csv := gi_data_csv p |}).
Proof.
  revert entries p. induction rows as [|row rows IH]; intros entries p.
  - simpl. unfold mret, Py_ret. by rewrite !app_nil_r, proc_eta.
  - simpl for_each. unfold mbind, Py_bind at 1.
    rewrite process_row_spec, IH. simpl.
    destruct (accepted_entry column_names row); simpl;
      by rewrite <- ?app_assoc, ?app_nil_r.
Qed.

(** ** Writing the file *)

Lemma dict_to_list_ok column_names (rowdict : gmap string string) :
  dom rowdict ⊆ list_to_set column_names ->
  Csv.dict_to_list column_names rowdict
  = inr (csv_values column_names rowdict).
Proof.
  intros H. unfold Csv.dict_to_list. case_decide as Hd; [done|].
  exfalso. apply Hd. apply set_eq. intros x.
  rewrite elem_of_difference. split; [|by intros ?%not_elem_of_empty].
  intros [Hx Hnx]. exfalso. by apply Hnx, H.
Qed.

Lemma header_dict_dom (column_names : list string) :
  dom (py_dict (zip column_names column_names)) = list_to_set column_names.
Proof. by rewrite dom_py_dict, fst_zip. Qed.

(** [writeheader] writes the column names themselves. *)
Lemma header_values (column_names : list string) :
  csv_values column_names (py_dict (zip column_names column_names))
  = column_names.
Proof.
  unfold csv_values. etrans; [|apply List.map_id].
  apply map_ext_in. intros k Hk.
  rewrite (py_dict_lookup_fun (fun k => k)); [done| |].
  - intros k' v' Hin. apply list_elem_of_lookup in Hin as [i Hi].
    apply lookup_zip_with_Some in Hi as (x & y & Heq & Hx & Hy).
    congruence.
  - rewrite fst_zip by done. by apply list_elem_of_In.
Qed.

Lemma f_write_spec w text p content :
  gi_data_csv p = Some content ->
  f_write w text p =
  if fits w (content ++ text) then
    (Return tt,
     {| stdout := stdout p; gi_data_csv := Some (content ++ text)%string |})
  else
    (Raise OSError,
     {| stdout := stdout p;
        gi_data_csv :=
          Some (content ++
                Str.take (default 0%nat (disk_space w)
                          - String.length content) text)%string |}).
Proof.
  intros H. unfold f_write, fits. rewrite H, string_length_app.
  by destruct (disk_space w).
Qed.

(** The records of [writerows] go to the file one after the other until
    one of them does not fit. *)
Lemma writerows_spec w column_names entries p content :
  Forall (fun e : gmap string string =>
            dom e ⊆ list_to_set column_names) entries ->
  gi_data_csv p = Some content ->
  fits w content = true ->
  let text :=
    (content ++
     Str.cat (map (fun e => Csv.record (csv_values column_names e))
                entries))%string in
  writerows w column_names entries p =
  if fits w text then
    (Return tt, {| stdout := stdout p; gi_data_csv := Some text |})
  else
    (Raise OSError,
     {| stdout := stdout p;
        gi_data_csv := Some (Str.take (default 0%nat (disk_space w)) text) |}).
Proof.
  intros Hdom. revert p content.
  induction Hdom as [|e entries He _ IH]; intros p content Hp Hfits; simpl.
  - unfold Str.cat. simpl. rewrite string_app_nil_r, Hfits.
    unfold writerows. simpl. unfold mret, Py_ret. by rewrite <- Hp, proc_eta.
  - unfold writerows. simpl for_each. unfold mbind, Py_bind at 1.
    unfold writerow at 1. rewrite dict_to_list_ok by done.
    rewrite (f_write_spec _ _ _ content) by done.
    rewrite cat_cons, <- string_app_assoc.
    set (chunk := Csv.record (csv_values column_names e)).
    destruct (fits w (content ++ chunk)) eqn:Hchunk.
    + fold (writerows w column_names entries).
      by rewrite (IH _ (content ++ chunk)%string).
    + assert (fits w ((content ++ chunk) ++
                Str.cat (map (fun e => Csv.record (csv_values column_names e))
                           entries)) = false) as ->.
      { unfold fits in *. destruct (disk_space w) as [n|]; [|done].
        apply Nat.leb_gt in Hchunk. apply Nat.leb_gt.
        rewrite string_length_app. lia. }
      do 3 f_equal. unfold fits in *.
      destruct (disk_space w) as [n|]; [|done]. simpl.
      apply Nat.leb_gt in Hchunk. apply Nat.leb_le in Hfits.
      rewrite string_length_app in Hchunk.
      rewrite string_app_assoc, take_app by done. f_equal.
      rewrite take_app_short; [done|lia].
Qed.

(** ** Running main *)

Lemma bind_eq {A B} (c : Py A) (k : A -> Py B) p :
  (c ≫= k) p =
  match c p with
  | (Return a, p') => k a p'
  | (Raise e, p') => (Raise e, p')
  | (SystemExit code, p') => (SystemExit code, p')
  end.
Proof. reflexivity. Qed.

Lemma csv_text_eq column_names entries :
  csv_text column_names entries =
  (Csv.record column_names ++
   Str.cat (map (fun e => Csv.record (csv_values column_names e)) entries))%string.
Proof. unfold csv_text. apply cat_cons. Qed.

Lemma save_csv_spec w column_names entries p :
  Forall (fun e : gmap string string =>
            dom e ⊆ list_to_set column_names) entries ->
  save_csv w column_names entries p =
  if open_fails w then
    (SystemExit 1,
     {| stdout := stdout p ++ [FailedToSaveCsv OSError];
        gi_data_csv := gi_data_csv p |})
  else if fits w (csv_text column_names entries) then
    (Return tt,
     {| stdout := stdout p ++ [SuccessfullySaved (length entries) output_csv];
        gi_data_csv := Some (csv_text column_names entries) |})
  else
    (SystemExit 1,
     {| stdout := stdout p ++ [FailedToSaveCsv OSError];
        gi_data_csv :=
          Some (Str.take (default 0%nat (disk_space w))
                  (csv_text column_names entries)) |}).
Proof.
  intros Hdom. unfold save_csv, try_except.
  rewrite bind_eq. unfold open_w at 1.
  destruct (open_fails w); [reflexivity|].
  rewrite bind_eq. unfold writeheader, writerow at 1.
  rewrite dict_to_list_ok, header_values
    by (by rewrite header_dict_dom).
  rewrite (f_write_spec _ _ _ EmptyString) by done.
  rewrite app_empty_l, csv_text_eq. simpl stdout.
  destruct (fits w (Csv.record column_names)) eqn:Hhead.
  - rewrite bind_eq.
    rewrite (writerows_spec _ _ _ _ (Csv.record column_names)) by done.
    match goal with
    | |- context [fits w ?t] => destruct (fits w t)
    end; reflexivity.
  - assert (fits w (Csv.record column_names ++
              Str.cat (map (fun e => Csv.record (csv_values column_names e))
                         entries)) = false) as ->.
    { unfold fits in *. destruct (disk_space w) as [n|]; [|done].
      apply Nat.leb_gt in Hhead. apply Nat.leb_gt.
      rewrite string_length_app. lia. }
    rewrite app_empty_l. simpl String.length. rewrite Nat.sub_0_r.
    rewrite take_app_short; [done|].
    unfold fits in Hhead. destruct (disk_space w) as [n|]; [|done].
    apply Nat.leb_gt in Hhead. simpl. lia.
Qed.

Lemma status_ok r :
  (200 <= status_code r < 300)%nat ->
  ((200 <=? status_code r) && (status_code r <? 300))%nat = true.
Proof.
  intros [H1 H2]. apply andb_true_intro.
  split; [by apply Nat.leb_le | by apply Nat.ltb_lt].
Qed.

(** A run that reaches the row loop prints its progress, collects the
    accepted records and then either stops with "no valid entries" or
    writes the file. *)
Lemma run_scraped w column_names rows :
  scraped w column_names rows ->
  let entries :=
    map model_dump (omap (accepted_entry column_names) rows) in
  let p :=
    {| stdout := [Downloading url; FoundColumns column_names;
                  ProcessingRows (length rows)]
                 ++ flat_map (row_log column_names) rows;
       gi_data_csv := None |} in
  run w =
  match entries with
  | [] => (SystemExit 0,
           {| stdout := stdout p ++ [NoValidEntriesFound];
              gi_data_csv := None |})
  | _ :: _ => save_csv w column_names entries p
  end.
Proof.
  intros (response & table & thead & tbody & Hget & Hstatus & Htable
          & Hthead & Htbody & -> & ->).
  unfold run, main. rewrite bind_eq. simpl.
  rewrite bind_eq. unfold try_except. rewrite bind_eq.
  unfold client_get. rewrite Hget. simpl. rewrite bind_eq.
  unfold raise_for_status. rewrite (status_ok _ Hstatus). simpl.
  rewrite Htable, Hthead. rewrite bind_eq. simpl.
  rewrite Htbody. rewrite bind_eq. simpl. rewrite bind_eq.
  rewrite for_each_process_row. simpl.
  destruct (map model_dump _); reflexivity.
Qed.

(** ** Accepted rows *)

Lemma accepted_entry_Some column_names row entry :
  accepted_entry column_names row = Some entry ->
  Bs4.find_all "td" row <> [] /\
  GIEntry_init
    (row_dict column_names
       (reconcile column_names
          (map Bs4.get_text_strip (Bs4.find_all "td" row)))) = inr entry.
Proof.
  unfold accepted_entry. destruct (Bs4.find_all "td" row) as [|c cells]; [done|].
  destruct (GIEntry_init _) as [e|entry'] eqn:Hinit; [done|].
  intros [= ->]. by split.
Qed.

(** A row is accepted only when every alias is among the column names. *)
Lemma accepted_entry_aliases column_names row entry :
  accepted_entry column_names row = Some entry ->
  forall alias, alias ∈ aliases -> alias ∈ column_names.
Proof.
  intros [_ Hinit]%accepted_entry_Some alias Hin.
  destruct (validated_fields _ _ Hinit alias Hin) as (raw & Hraw & _).
  destruct (decide (alias ∈ column_names)) as [|Hnot]; [done|].
  by rewrite row_dict_absent in Hraw.
Qed.

Lemma accepted_entries_dom column_names rows :
  Forall (fun e : gmap string string => dom e ⊆ list_to_set column_names)
    (map model_dump (omap (accepted_entry column_names) rows)).
Proof.
  apply Forall_forall. intros e Hin.
  apply list_elem_of_fmap in Hin as (entry & -> & Hin).
  apply list_elem_of_omap in Hin as (row & _ & Hrow).
  rewrite model_dump_dom. intros alias Halias.
  apply elem_of_list_to_set in Halias. apply elem_of_list_to_set.
  by apply (accepted_entry_aliases _ _ _ Hrow).
Qed.

(** When an alias is no column name, [GIEntry] rejects every row. *)
Lemma missing_alias_rejects column_names alias data :
  alias ∈ aliases -> alias ∉ column_names ->
  exists e, GIEntry_init (row_dict column_names data) = inl e.
Proof.
  intros Hin Hnot. apply (GIEntry_init_missing _ alias); [done|].
  by apply row_dict_absent.
Qed.

Lemma missing_alias_no_entry column_names alias row :
  alias ∈ aliases -> alias ∉ column_names ->
  accepted_entry column_names row = None.
Proof.
  intros Hin Hnot. unfold accepted_entry.
  destruct (Bs4.find_all "td" row) as [|c cells]; [done|].
  by destruct (missing_alias_rejects column_names alias
                 (reconcile column_names (map Bs4.get_text_strip (c :: cells)))
                 Hin Hnot) as [e ->].
Qed.

Lemma omap_all_None {A B} (f : A -> option B) (l : list A) :
  (forall x, x ∈ l -> f x = None) -> omap f l = [].
Proof.
  induction l as [|x l IH]; intros H; [done|].
  simpl. rewrite (H x) by apply list_elem_of_here.
  apply IH. intros y Hy. apply H. by apply list_elem_of_further.
Qed.

(** ** Lines of the output file *)

Lemma contains_app p (a b : string) :
  Str.contains p (a ++ b) = Str.contains p a || Str.contains p b.
Proof.
  induction a as [|c a IH]; [done|].
  rewrite app_String. simpl. by rewrite IH, orb_assoc.
Qed.

Lemma no_linebreak_app (a b : string) :
  no_linebreak a -> no_linebreak b -> no_linebreak (a ++ b).
Proof. unfold no_linebreak. rewrite contains_app. by intros -> ->. Qed.

Lemma no_linebreak_double_quotes s :
  no_linebreak s -> no_linebreak (Csv.double_quotes s).
Proof.
  unfold no_linebreak. induction s as [|c s IH]; [done|]. simpl.
  intros [Hc Hs]%orb_false_elim.
  destruct (Ascii.eqb c Str.DQUOTE); simpl; by rewrite Hc, IH.
Qed.

Lemma no_linebreak_field s : no_linebreak s -> no_linebreak (Csv.field s).
Proof.
  intros H. unfold Csv.field. destruct (Str.contains Csv.special s); [|done].
  apply (no_linebreak_app (String Str.DQUOTE EmptyString)); [done|].
  apply no_linebreak_app; [by apply no_linebreak_double_quotes | done].
Qed.

Lemma no_linebreak_join sep parts :
  no_linebreak sep -> Forall no_linebreak parts ->
  no_linebreak (Str.join sep parts).
Proof.
  intros Hsep. induction 1 as [|x parts Hx Hparts IH]; [done|].
  destruct parts as [|y parts]; [done|].
  change (no_linebreak (x ++ sep ++ Str.join sep (y :: parts))).
  by repeat apply no_linebreak_app.
Qed.

Lemma count_lines_app (a b : string) :
  no_linebreak a -> Str.count_lines (a ++ b) = Str.count_lines b.
Proof.
  unfold no_linebreak. induction a as [|c a IH]; [done|].
  rewrite app_String. simpl Str.contains.
  intros [Hc Ha]%orb_false_elim.
  apply orb_false_elim in Hc as [Hlf Hcr].
  simpl. rewrite Hcr, Hlf. by apply IH.
Qed.

(** A record whose fields hold no line break is one line of the file. *)
Lemma count_lines_record row (rest : string) :
  Forall no_linebreak row ->
  Str.count_lines (Csv.record row ++ rest) = S (Str.count_lines rest).
Proof.
  intros Hrow. unfold Csv.record. rewrite string_app_assoc.
  rewrite count_lines_app; [done|].
  destruct (_ && _); [done|].
  apply no_linebreak_join; [done|].
  apply Forall_forall. intros f Hf.
  apply list_elem_of_fmap in Hf as (s & -> & Hs).
  apply no_linebreak_field. by apply (proj1 (Forall_forall _ _) Hrow).
Qed.

Lemma count_lines_records rows :
  Forall (Forall no_linebreak) rows ->
  Str.count_lines (Str.cat (map Csv.record rows)) = length rows.
Proof.
  induction 1 as [|row rows Hrow _ IH]; [done|].
  simpl map. rewrite cat_cons, count_lines_record by done.
  simpl. by rewrite IH.
Qed.

(** ** Two runs of the specification's scenarios *)

(** A row with three of thirteen cells is padded with ten empty strings
    and validates. *)
Example short_row_validates :
  reconcile aliases ["Apple"; "40"; "Acme"]
  = ["Apple"; "40"; "Acme"; ""; ""; ""; ""; ""; ""; ""; ""; ""; ""] /\
  exists entry,
    accepted_entry aliases (Sample.tr ["Apple"; "40"; "Acme"]) = Some entry /\
    food_name entry = "Apple" /\ gi entry = "40" /\ year entry = "".
Proof. split; [reflexivity|]. eexists. by vm_compute. Qed.

(** One fully populated row gives one data line that keeps each value
    under its header. *)
Example apple_run :
  gi_data_csv (run (Sample.page [Sample.gi_table aliases [Sample.apple]])).2
  = Some (Csv.record aliases ++ Csv.record Sample.apple)%string.
Proof. reflexivity. Qed.

(** ** The fatal stages of main *)

Lemma run_fetch_raises w e :
  http_get w = inl e ->
  run w =
  (SystemExit 1,
   {| stdout := [Downloading url;
                 match e with
                 | HTTPStatusError _ => HttpErrorOccurred e
                 | _ => AnErrorOccurred e
                 end];
      gi_data_csv := None |}).
Proof.
  intros H. unfold run, main. rewrite bind_eq. simpl.
  rewrite bind_eq. unfold try_except. rewrite bind_eq.
  unfold client_get. rewrite H. simpl. by destruct e.
Qed.

Lemma run_bad_status w response :
  http_get w = inr response ->
  ~ (200 <= status_code response < 300)%nat ->
  run w =
  (SystemExit 1,
   {| stdout := [Downloading url;
                 HttpErrorOccurred (HTTPStatusError (status_code response))];
      gi_data_csv := None |}).
Proof.
  intros H Hstatus. unfold run, main. rewrite bind_eq. simpl.
  rewrite bind_eq. unfold try_except. rewrite bind_eq.
  unfold client_get. rewrite H. simpl. rewrite bind_eq.
  unfold raise_for_status.
  destruct (Nat.leb_spec 200 (status_code response));
    destruct (Nat.ltb_spec (status_code response) 300); simpl;
    try reflexivity.
  lia.
Qed.

Lemma run_no_table w response :
  http_get w = inr response ->
  (200 <= status_code response < 300)%nat ->
  Bs4.find_by_id "table" "tablepress-1" (soup response) = None ->
  run w =
  (SystemExit 1,
   {| stdout := [Downloading url; CouldNotFindTable]
                ++ match Bs4.find_all "table" (soup response) with
                   | [] => []
                   | tables => [FoundOtherTables (length tables)]
                   end;
      gi_data_csv := None |}).
Proof.
  intros H Hstatus Htable. unfold run, main. rewrite bind_eq. simpl.
  rewrite bind_eq. unfold try_except. rewrite bind_eq.
  unfold client_get. rewrite H. simpl. rewrite bind_eq.
  unfold raise_for_status. rewrite (status_ok _ Hstatus). simpl.
  rewrite Htable. rewrite bind_eq. simpl. rewrite bind_eq.
  by destruct (Bs4.find_all "table" (soup response)).
Qed.

Lemma run_malformed_table w response table :
  http_get w = inr response ->
  (200 <= status_code response < 300)%nat ->
  Bs4.find_by_id "table" "tablepress-1" (soup response) = Some table ->
  Bs4.find "thead" table = None \/ Bs4.find "tbody" table = None ->
  exists log,
    run w = (SystemExit 1, {| stdout := log; gi_data_csv := None |}).
Proof.
  intros H Hstatus Htable Hparts. unfold run, main. rewrite bind_eq. simpl.
  rewrite bind_eq. unfold try_except. rewrite bind_eq.
  unfold client_get. rewrite H. simpl. rewrite bind_eq.
  unfold raise_for_status. rewrite (status_ok _ Hstatus). simpl.
  rewrite Htable.
  destruct (Bs4.find "thead" table) as [thead|] eqn:Hthead.
  - destruct Hparts as [|Htbody]; [done|]. rewrite bind_eq. simpl.
    rewrite Htbody. rewrite bind_eq. simpl. eauto.
  - rewrite bind_eq. simpl. eauto.
Qed.

Lemma filter_none {A} (f : A -> bool) (l : list A) :
  Forall (fun x => f x = false) l -> List.filter f l = [].
Proof.
  induction 1 as [|x l Hx _ IH]; [done|]. simpl. by rewrite Hx.
Qed.

(** ** The claims about whole runs *)

(** C5, as amended. When the page is fetched and none of its elements is
    a table with the identifier [tablepress-1], the run prints that the
    table could not be found, then the number of table elements of the
    page when there is at least one (and nothing about tables when there
    is none), ends with exit status 1 and has not created the output
    file. *)
Theorem table_not_found_reported (w : World) (response : Response) :
  http_get w = inr response ->
  (200 <= status_code response < 300)%nat ->
  Forall (fun e =>
            Bs4.is_tag "table" e && Bs4.has_attr "id" "tablepress-1" e
            = false)
    (Bs4.descendants (soup response)) ->
  let n := length (Bs4.find_all "table" (soup response)) in
  run w =
  (SystemExit 1,
   {| stdout := [Downloading url; CouldNotFindTable]
                ++ (if decide (n = 0%nat) then []
                    else [FoundOtherTables n]);
      gi_data_csv := None |}).
Proof.
  intros H Hstatus Hnone n.
  rewrite (run_no_table w response H Hstatus).
  - subst n. by destruct (Bs4.find_all "table" (soup response)).
  - unfold Bs4.find_by_id. by rewrite filter_none.
Qed.

Lemma table_not_found_reported_witness :
  run (Sample.page [Sample.table "other" []; Sample.table "tablepress-2" []])
  = (SystemExit 1,
     {| stdout := [Downloading url; CouldNotFindTable; FoundOtherTables 2];
        gi_data_csv := None |}).
Proof.
  apply (table_not_found_reported
           (Sample.page [Sample.table "other" [];
                         Sample.table "tablepress-2" []])
           {| status_code := 200;
              soup := Sample.document [Sample.table "other" [];
                                       Sample.table "tablepress-2" []] |}).
  - reflexivity.
  - simpl. lia.
  - repeat constructor.
Defined.

(** C5 fails as stated on a page without any table element: the run
    reports no number of tables at all. *)
Lemma table_not_found_no_count :
  run (Sample.page [])
  = (SystemExit 1,
     {| stdout := [Downloading url; CouldNotFindTable];
        gi_data_csv := None |})
  /\ Bs4.find_by_id "table" "tablepress-1" (Sample.document []) = None
  /\ forall n, FoundOtherTables n ∉ stdout (run (Sample.page [])).2.
Proof.
  split; [reflexivity|]. split; [reflexivity|].
  intros n Hin. vm_compute in Hin.
  repeat (apply elem_of_cons in Hin as [Hin|Hin]; [discriminate|]).
  by apply elem_of_nil in Hin.
Qed.

(** C4, as amended. When the table, its header section and its body
    section are found but no row validates, the run reports that there
    are no valid entries, ends with exit status 0 and has not created the
    output file. *)
Theorem no_valid_rows_soft_success
    (w : World) (column_names : list string) (rows : list Bs4.PageElement) :
  scraped w column_names rows ->
  omap (accepted_entry column_names) rows = [] ->
  exit_status (run w).1 = 0%Z /\
  gi_data_csv (run w).2 = None /\
  last (stdout (run w).2) = Some NoValidEntriesFound.
Proof.
  intros Hscraped Hnone. rewrite (run_scraped _ _ _ Hscraped), Hnone.
  cbn [map fst snd stdout gi_data_csv exit_status].
  repeat split. apply last_snoc.
Qed.

Lemma no_valid_rows_soft_success_witness :
  exit_status
    (run (Sample.page [Sample.gi_table ["Food Name"; "GI"]
                         [["Apple"; "40"]; ["Pear"; "38"]]])).1 = 0%Z /\
  gi_data_csv
    (run (Sample.page [Sample.gi_table ["Food Name"; "GI"]
                         [["Apple"; "40"]; ["Pear"; "38"]]])).2 = None /\
  last (stdout
          (run (Sample.page [Sample.gi_table ["Food Name"; "GI"]
                               [["Apple"; "40"]; ["Pear"; "38"]]])).2)
  = Some NoValidEntriesFound.
Proof.
  apply (no_valid_rows_soft_success
           (Sample.page [Sample.gi_table ["Food Name"; "GI"]
                           [["Apple"; "40"]; ["Pear"; "38"]]])
           ["Food Name"; "GI"]
           [Sample.tr ["Apple"; "40"]; Sample.tr ["Pear"; "38"]]).
  - eexists _, _, _, _. repeat split; try reflexivity; simpl; lia.
  - reflexivity.
Defined.

(** C4 fails as stated on a table that has a header section and no body
    section: the table and the headers are found, no row validates, and
    the exit status is 1. *)
Lemma headers_found_no_body_exits_1 :
  let table := Sample.table "tablepress-1" [Sample.thead aliases] in
  Bs4.find_by_id "table" "tablepress-1" (Sample.document [table])
  = Some table /\
  Bs4.find "thead" table = Some (Sample.thead aliases) /\
  map Bs4.get_text_strip (Bs4.find_all "th" (Sample.thead aliases))
  = aliases /\
  Bs4.find "tbody" table = None /\
  run (Sample.page [table])
  = (SystemExit 1,
     {| stdout := [Downloading url; FoundColumns aliases; NoTbody];
        gi_data_csv := None |}) /\
  exit_status (run (Sample.page [table])).1 = 1%Z.
Proof. repeat split; reflexivity. Qed.

(** C10, as amended. When the header list lacks one of the thirteen
    aliases, [GIEntry] rejects every row whatever its cells, so that when
    the body section is found the run ends with exit status 0 and has not
    created the output file. *)
Theorem missing_alias_soft_success
    (w : World) (column_names : list string) (rows : list Bs4.PageElement)
    (alias : string) :
  scraped w column_names rows ->
  alias ∈ aliases ->
  alias ∉ column_names ->
  (forall data, exists e,
      GIEntry_init (row_dict column_names data) = inl e) /\
  (forall row, accepted_entry column_names row = None) /\
  exit_status (run w).1 = 0%Z /\
  gi_data_csv (run w).2 = None.
Proof.
  intros Hscraped Hin Hnot.
  split; [intros data; by apply (missing_alias_rejects _ alias)|].
  split; [intros row; by apply (missing_alias_no_entry _ alias)|].
  rewrite (run_scraped _ _ _ Hscraped).
  rewrite omap_all_None; [done|].
  intros row _. by apply (missing_alias_no_entry _ alias).
Qed.

Lemma missing_alias_soft_success_witness :
  (forall data, exists e,
      GIEntry_init (row_dict (removelast aliases) data) = inl e) /\
  (forall row, accepted_entry (removelast aliases) row = None) /\
  exit_status
    (run (Sample.page [Sample.gi_table (removelast aliases)
                         [Sample.apple]])).1 = 0%Z /\
  gi_data_csv
    (run (Sample.page [Sample.gi_table (removelast aliases)
                         [Sample.apple]])).2 = None.
Proof.
  apply (missing_alias_soft_success
           (Sample.page [Sample.gi_table (removelast aliases) [Sample.apple]])
           (removelast aliases) [Sample.tr Sample.apple] "Year of test").
  - eexists _, _, _, _. repeat split; try reflexivity; simpl; lia.
  - apply (bool_decide_unpack _). by vm_compute.
  - apply (bool_decide_unpack _). by vm_compute.
Defined.

(** C10 fails as stated when the header list lacks an alias and the table
    has no body section: the exit status is 1. *)
Lemma missing_alias_no_body_exits_1 :
  let table := Sample.table "tablepress-1"
                 [Sample.thead (removelast aliases)] in
  Bs4.find_by_id "table" "tablepress-1" (Sample.document [table])
  = Some table /\
  map Bs4.get_text_strip
    (Bs4.find_all "th" (default table (Bs4.find "thead" table)))
  = removelast aliases /\
  ("Year of test" ∈ aliases) /\
  ("Year of test" ∉ removelast aliases) /\
  exit_status (run (Sample.page [table])).1 = 1%Z.
Proof.
  repeat split; try reflexivity; apply (bool_decide_unpack _); by vm_compute.
Qed.

Lemma csv_text_records column_names entries :
  csv_text column_names entries =
  Str.cat (map Csv.record
             (column_names :: map (csv_values column_names) entries)).
Proof. unfold csv_text. simpl. by rewrite map_map. Qed.

(** C3, as amended. When the run reaches the row loop, N > 0 rows
    validate and the file system lets the whole text be written, the run
    ends with exit status 0 and the output file holds exactly N+1 CSV
    records: the record of the column names in their discovered order,
    then the record of each validated row in processing order. These are
    N+1 lines of text when no column name and no written value holds a
    line break. *)
Theorem csv_header_then_one_record_per_entry
    (w : World) (column_names : list string) (rows : list Bs4.PageElement) :
  scraped w column_names rows ->
  let entries := omap (accepted_entry column_names) rows in
  let records :=
    column_names
    :: map (fun e => csv_values column_names (model_dump e)) entries in
  (0 < length entries)%nat ->
  open_fails w = false ->
  fits w (csv_text column_names (map model_dump entries)) = true ->
  exit_status (run w).1 = 0%Z /\
  gi_data_csv (run w).2 = Some (Str.cat (map Csv.record records)) /\
  length records = S (length entries) /\
  (Forall (Forall no_linebreak) records ->
   Str.count_lines <$> gi_data_csv (run w).2 = Some (S (length entries))).
Proof.
  intros Hscraped entries records Hpos Hopen Hfits.
  assert (gi_data_csv (run w).2 = Some (Str.cat (map Csv.record records))
          /\ exit_status (run w).1 = 0%Z) as [Hfile Hexit].
  { rewrite (run_scraped _ _ _ Hscraped). fold entries.
    destruct (map model_dump entries) as [|e es] eqn:Hentries.
    - destruct entries; [simpl in Hpos; lia | discriminate].
    - rewrite save_csv_spec, Hopen, Hfits.
      + rewrite csv_text_records, <- Hentries, map_map. by split.
      + rewrite <- Hentries. apply accepted_entries_dom. }
  split; [done|]. split; [done|].
  split; [subst records; simpl; by rewrite length_map|].
  intros Hlines. rewrite Hfile.
  change (Some (Str.count_lines (Str.cat (map Csv.record records)))
          = Some (S (length entries))).
  rewrite count_lines_records by done.
  subst records. simpl. by rewrite length_map.
Qed.

Lemma csv_header_then_one_record_per_entry_witness :
  exit_status (run (Sample.page [Sample.gi_table aliases [Sample.apple]])).1
  = 0%Z /\
  gi_data_csv (run (Sample.page [Sample.gi_table aliases [Sample.apple]])).2
  = Some (Str.cat (map Csv.record [aliases; Sample.apple])) /\
  Str.count_lines
    <$> gi_data_csv
          (run (Sample.page [Sample.gi_table aliases [Sample.apple]])).2
  = Some 2%nat.
Proof.
  destruct (csv_header_then_one_record_per_entry
              (Sample.page [Sample.gi_table aliases [Sample.apple]])
              aliases [Sample.tr Sample.apple]) as (H1 & H2 & _ & H3).
  - eexists _, _, _, _. repeat split; try reflexivity; simpl; lia.
  - vm_compute. lia.
  - reflexivity.
  - reflexivity.
  - split; [exact H1|]. split; [exact H2|]. apply H3.
    apply (bool_decide_unpack _). by vm_compute.
Defined.

(** C3 fails as stated on a cell whose text holds a line break: one row
    validates and the file has three lines. *)
Lemma csv_cell_with_line_break_spans_lines :
  let w := Sample.page [Sample.gi_table aliases [Sample.apple_pie]] in
  scraped w aliases [Sample.tr Sample.apple_pie] /\
  length (omap (accepted_entry aliases) [Sample.tr Sample.apple_pie])
  = 1%nat /\
  exit_status (run w).1 = 0%Z /\
  Str.count_lines <$> gi_data_csv (run w).2 = Some 3%nat.
Proof.
  split.
  - eexists _, _, _, _. repeat split; try reflexivity; simpl; lia.
  - repeat split; reflexivity.
Qed.

(** C6, as amended. A fetch failure (an exception of the request or a
    status outside 2xx), a missing table, a missing header or body
    section and a failure to open the output file each end the run with
    exit status 1 before the output file is created. A write that fails
    after the file was opened also ends the run with exit status 1, but
    leaves the file with the part of the text that was written. The row
    loop itself never ends the run: a validation error only skips its
    row. *)
Theorem fatal_errors_abort (w : World) :
  (forall e, http_get w = inl e -> aborted_without_output w) /\
  (forall response,
      http_get w = inr response ->
      ~ (200 <= status_code response < 300)%nat ->
      aborted_without_output w) /\
  (forall response,
      http_get w = inr response ->
      (200 <= status_code response < 300)%nat ->
      Bs4.find_by_id "table" "tablepress-1" (soup response) = None ->
      aborted_without_output w) /\
  (forall response table,
      http_get w = inr response ->
      (200 <= status_code response < 300)%nat ->
      Bs4.find_by_id "table" "tablepress-1" (soup response) = Some table ->
      Bs4.find "thead" table = None \/ Bs4.find "tbody" table = None ->
      aborted_without_output w) /\
  (forall column_names rows,
      scraped w column_names rows ->
      let entries :=
        map model_dump (omap (accepted_entry column_names) rows) in
      entries <> [] ->
      (open_fails w = true -> aborted_without_output w) /\
      (open_fails w = false ->
       fits w (csv_text column_names entries) = false ->
       exit_status (run w).1 = 1%Z /\
       gi_data_csv (run w).2
       = Some (Str.take (default 0%nat (disk_space w))
                 (csv_text column_names entries)))) /\
  (forall column_names entries rows p,
      exists entries' p',
        for_each (process_row column_names) entries rows p
        = (Return entries', p')).
Proof.
  unfold aborted_without_output.
  split; [|split; [|split; [|split; [|split]]]].
  - intros e H. by rewrite (run_fetch_raises _ _ H).
  - intros response H Hstatus. by rewrite (run_bad_status _ _ H Hstatus).
  - intros response H Hstatus Htable.
    by rewrite (run_no_table _ _ H Hstatus Htable).
  - intros response table H Hstatus Htable Hparts.
    by destruct (run_malformed_table _ _ _ H Hstatus Htable Hparts)
      as [log ->].
  - intros column_names rows Hscraped Hentries.
    rewrite (run_scraped _ _ _ Hscraped).
    pose proof (accepted_entries_dom column_names rows) as Hdom.
    destruct (map model_dump _) as [|e es]; [done|].
    rewrite save_csv_spec by done.
    split; [by intros -> | by intros -> ->].
  - intros column_names entries rows p.
    rewrite for_each_process_row. eauto.
Qed.

Lemma fatal_errors_abort_witness :
  aborted_without_output
    {| http_get :=
         inr {| status_code := 404;
                soup := Sample.document
                          [Sample.gi_table aliases [Sample.apple]] |};
       open_fails := false;
       disk_space := None |} /\
  aborted_without_output
    {| http_get :=
         inr {| status_code := 200;
                soup := Sample.document
                          [Sample.gi_table aliases [Sample.apple]] |};
       open_fails := true;
       disk_space := None |}.
Proof.
  split.
  - eapply (proj1 (proj2 (fatal_errors_abort _))).
    + reflexivity.
    + simpl. lia.
  - destruct (proj1 (proj2 (proj2 (proj2 (proj2
                (fatal_errors_abort
                   {| http_get :=
                        inr {| status_code := 200;
                               soup := Sample.document
                                         [Sample.gi_table aliases
                                            [Sample.apple]] |};
                      open_fails := true;
                      disk_space := None |})))))
                aliases [Sample.tr Sample.apple]) as [Hopen _].
    + eexists _, _, _, _. repeat split; try reflexivity; simpl; lia.
    + intros H. apply (f_equal length) in H. revert H.
      vm_compute. discriminate.
    + apply Hopen. reflexivity.
Defined.

(** C6 fails as stated for a write failure: when the disk takes thirty
    characters, the run ends with exit status 1 and leaves an output file
    holding the first thirty characters. *)
Lemma write_failure_leaves_partial_file :
  let w := {| http_get :=
                inr {| status_code := 200;
                       soup := Sample.document
                                 [Sample.gi_table aliases [Sample.apple]] |};
              open_fails := false;
              disk_space := Some 30%nat |} in
  run w
  = (SystemExit 1,
     {| stdout := [Downloading url; FoundColumns aliases; ProcessingRows 1;
                   FailedToSaveCsv OSError];
        gi_data_csv := Some "Food Name,GI,Food Manufacturer" |}) /\
  exit_status (run w).1 = 1%Z /\
  gi_data_csv (run w).2 <> None.
Proof. repeat split; try reflexivity. vm_compute. discriminate. Qed.

(** C8. A row whose mapping [GIEntry] rejects is logged with the first
    value of its reconciled cells, or with "Unknown" when there is none;
    the iteration returns normally with the list of entries unchanged,
    and the loop goes on with the next row. *)
Theorem rejected_row_is_logged_and_skipped
    (column_names : list string) (entries : list (gmap string string))
    (row : Bs4.PageElement) (rest : list Bs4.PageElement) (p : Proc)
    (e : ValidationError) :
  let data :=
    reconcile column_names
      (map Bs4.get_text_strip (Bs4.find_all "td" row)) in
  let p' :=
    {| stdout := stdout p
                 ++ [ValidationFailedForRow (default "Unknown" (head data));
                     ValidationErrorText e];
       gi_data_csv := gi_data_csv p |} in
  Bs4.find_all "td" row <> [] ->
  GIEntry_init (row_dict column_names data) = inl e ->
  process_row column_names entries row p = (Return entries, p') /\
  for_each (process_row column_names) entries (row :: rest) p
  = for_each (process_row column_names) entries rest p'.
Proof.
  intros data p' Hcells Hinit.
  assert (process_row column_names entries row p = (Return entries, p'))
    as Hrow.
  { rewrite process_row_spec. unfold accepted_entry, row_log.
    destruct (Bs4.find_all "td" row) as [|c cells] eqn:Htd; [done|].
    fold data. rewrite Hinit. simpl. rewrite app_nil_r.
    subst p'. by destruct data. }
  split; [done|]. simpl for_each. by rewrite bind_eq, Hrow.
Qed.

Lemma rejected_row_is_logged_and_skipped_witness :
  for_each (process_row ["Food Name"; "GI"]) []
    [Sample.tr ["Apple"; "40"]; Sample.tr ["Pear"]] start
  = for_each (process_row ["Food Name"; "GI"]) []
      [Sample.tr ["Pear"]]
      {| stdout := [ValidationFailedForRow "Apple";
                    ValidationErrorText
                      (field_errors
                         (row_dict ["Food Name"; "GI"] ["Apple"; "40"]))];
         gi_data_csv := None |}.
Proof.
  apply (rejected_row_is_logged_and_skipped
           ["Food Name"; "GI"] [] (Sample.tr ["Apple"; "40"])
           [Sample.tr ["Pear"]] start).
  - discriminate.
  - reflexivity.
Defined.

(** C9, as amended. For a row that reaches validation, the reconciled
    row is empty exactly when there is no header column; with at least
    one header column, the text that identifies a rejected row is the
    text of its first cell and the "Unknown" fallback is not used. *)
Theorem unknown_fallback_only_without_headers
    (column_names : list string) (row : Bs4.PageElement) :
  let cells := Bs4.find_all "td" row in
  let data := reconcile column_names (map Bs4.get_text_strip cells) in
  cells <> [] ->
  (data = [] <-> column_names = []) /\
  (column_names <> [] ->
   head data = Bs4.get_text_strip <$> head cells /\
   exists cell, head cells = Some cell /\
                row_context data = Bs4.get_text_strip cell).
Proof.
  intros cells data Hcells.
  pose proof (reconcile_length column_names (map Bs4.get_text_strip cells))
    as Hlen. fold data in Hlen.
  split.
  - split; intros H.
    + rewrite H in Hlen. by destruct column_names.
    + rewrite H in Hlen. by destruct data.
  - intros Hcols. destruct cells as [|c cs] eqn:Ecells; [done|].
    assert (head data = Some (Bs4.get_text_strip c)) as Hhead.
    { subst data. unfold reconcile. simpl map. simpl length.
      destruct column_names as [|h hs]; [done|]. simpl length.
      destruct (Nat.ltb_spec (S (length (map Bs4.get_text_strip cs)))
                  (S (length hs))); [done|].
      by destruct (Nat.ltb_spec (S (length hs))
                     (S (length (map Bs4.get_text_strip cs)))). }
    split; [done|]. exists c. split; [done|].
    unfold row_context. by destruct data; simplify_eq/=.
Qed.

Lemma unknown_fallback_only_without_headers_witness :
  head (reconcile ["Food Name"; "GI"]
          (map Bs4.get_text_strip
             (Bs4.find_all "td" (Sample.tr ["Apple"; "40"; "x"]))))
  = Some "Apple".
Proof.
  destruct (unknown_fallback_only_without_headers
              ["Food Name"; "GI"] (Sample.tr ["Apple"; "40"; "x"]))
    as [_ H].
  - discriminate.
  - destruct H as [H _]; [discriminate|]. exact H.
Defined.

(** C9 fails as stated on a table whose header section has no header
    cell: the row has a cell, its reconciled row is empty, validation
    fails and the log names the row "Unknown". *)
Lemma unknown_fallback_reached :
  let row := Sample.tr Sample.apple in
  Bs4.find_all "td" row <> [] /\
  reconcile [] (map Bs4.get_text_strip (Bs4.find_all "td" row)) = [] /\
  GIEntry_init (row_dict [] []) = inl (field_errors ∅) /\
  process_row [] [] row start
  = (Return [],
     {| stdout := [ValidationFailedForRow "Unknown";
                   ValidationErrorText (field_errors ∅)];
        gi_data_csv := None |}) /\
  run (Sample.page [Sample.gi_table [] [Sample.apple]])
  = (SystemExit 0,
     {| stdout := [Downloading url; FoundColumns []; ProcessingRows 1;
                   ValidationFailedForRow "Unknown";
                   ValidationErrorText (field_errors ∅);
                   NoValidEntriesFound];
        gi_data_csv := None |}).
Proof. repeat split; try reflexivity. discriminate. Qed.

(** ** Stripped text *)

Lemma lstrip_starts_ok s : starts_ok (Str.lstrip s) = true.
Proof.
  induction s as [|c s IH]; [done|]. simpl.
  destruct (Str.isspace c) eqn:Hc; [done|]. simpl. by rewrite Hc.
Qed.

Lemma lstrip_id s : starts_ok s = true -> Str.lstrip s = s.
Proof.
  destruct s as [|c s]; [done|]. simpl.
  by destruct (Str.isspace c).
Qed.

Lemma rstrip_starts_ok s : starts_ok s = true -> starts_ok (Str.rstrip s) = true.
Proof.
  destruct s as [|c s]; [done|]. simpl.
  destruct (Str.isspace c) eqn:Hc; [done|]. simpl. by rewrite Hc.
Qed.

Lemma rstrip_idemp s : Str.rstrip (Str.rstrip s) = Str.rstrip s.
Proof.
  induction s as [|c s IH]; [done|]. simpl.
  destruct (Str.isspace c && Str.is_empty (Str.rstrip s)) eqn:E; [done|].
  simpl. by rewrite IH, E.
Qed.

Lemma rstrip_app (a b : string) :
  Str.is_empty (Str.rstrip b) = false ->
  Str.rstrip (a ++ b) = (a ++ Str.rstrip b)%string.
Proof.
  intros Hb. induction a as [|c a IH]; [done|].
  rewrite !app_String. simpl. rewrite IH.
  assert (Str.is_empty (a ++ Str.rstrip b) = false) as ->.
  { destruct a; [done|]. by rewrite app_String. }
  by rewrite andb_false_r.
Qed.

Lemma stripped_strip s : stripped (Str.strip s).
Proof.
  unfold stripped, Str.strip. split.
  - apply rstrip_starts_ok, lstrip_starts_ok.
  - apply rstrip_idemp.
Qed.

Lemma stripped_app (a b : string) :
  Str.is_empty a = false -> stripped a -> stripped b -> stripped (a ++ b).
Proof.
  intros Ha [Hsa Hra] [Hsb Hrb]. split.
  - destruct a as [|c a]; [done|]. by rewrite app_String.
  - destruct (Str.is_empty b) eqn:Hb.
    + destruct b; [|done]. by rewrite string_app_nil_r.
    + rewrite rstrip_app; rewrite Hrb; done.
Qed.

Lemma stripped_cat parts :
  Forall (fun s => Str.is_empty s = false /\ stripped s) parts ->
  stripped (Str.cat parts).
Proof.
  induction 1 as [|x parts [Hx Hsx] _ IH]; [done|].
  rewrite cat_cons. by apply stripped_app.
Qed.

Lemma stripped_strip_id s : stripped s -> Str.strip s = s.
Proof. intros [Hs Hr]. unfold Str.strip. by rewrite lstrip_id. Qed.

Lemma stripped_blank s : stripped s -> Str.blank s = true -> s = EmptyString.
Proof.
  intros [Hs _]. destruct s as [|c s]; [done|]. simpl in *.
  by destruct (Str.isspace c).
Qed.

Lemma get_text_strip_stripped e : stripped (Bs4.get_text_strip e).
Proof.
  unfold Bs4.get_text_strip. apply stripped_cat.
  apply Forall_forall. intros s Hs. apply list_elem_of_In in Hs.
  apply filter_In in Hs as [Hin Hne].
  apply in_map_iff in Hin as (t & <- & _).
  split; [by apply negb_true_iff | apply stripped_strip].
Qed.

(** X1. The text [get_text(strip=True)] extracts from an element is
    already stripped: stripping it again changes nothing, so it never
    begins or ends with white space, and when it consists of white space
    only it is the empty string. *)
Theorem get_text_strip_is_stripped (e : Bs4.PageElement) :
  Str.strip (Bs4.get_text_strip e) = Bs4.get_text_strip e /\
  (Str.blank (Bs4.get_text_strip e) = true ->
   Bs4.get_text_strip e = EmptyString).
Proof.
  split.
  - apply stripped_strip_id, get_text_strip_stripped.
  - apply stripped_blank, get_text_strip_stripped.
Qed.

Lemma get_text_strip_is_stripped_witness :
  Bs4.get_text_strip
    (Bs4.Tag "td" ∅ [Bs4.NavigableString " "; Bs4.Tag "b" ∅ [Bs4.NavigableString "  "]])
  = EmptyString.
Proof.
  apply (get_text_strip_is_stripped
           (Bs4.Tag "td" ∅ [Bs4.NavigableString " ";
                        Bs4.Tag "b" ∅ [Bs4.NavigableString "  "]])).
  reflexivity.
Defined.

(** ** What validation accepts *)

Lemma py_dict_lookup_elem {V} (l : list (string * V)) k v :
  py_dict l !! k = Some v -> (k, v) ∈ l.
Proof.
  induction l as [|[k' v'] l IH] using rev_ind; [done|].
  rewrite py_dict_snoc. destruct (decide (k' = k)) as [->|Hne].
  - rewrite lookup_insert_eq. intros [= ->].
    apply elem_of_app. right. apply list_elem_of_here.
  - rewrite lookup_insert_ne by done. intros H.
    apply elem_of_app. left. by apply IH.
Qed.

Lemma elem_of_reconcile column_names data x :
  x ∈ reconcile column_names data -> x ∈ data \/ x = EmptyString.
Proof.
  unfold reconcile.
  destruct (Nat.ltb_spec (length data) (length column_names)) as [_|_].
  - intros [H|H]%elem_of_app; [by left|].
    apply elem_of_replicate in H as [-> _]. by right.
  - destruct (Nat.ltb_spec (length column_names) (length data)) as [_|_].
    + intros H. left. by apply (subseteq_take (length column_names)).
    + by left.
Qed.

(** The values of the mapping of a row of [main] are strings, and
    stripped ones: cell text or padding. *)
Lemma row_dict_values column_names cells k v :
  row_dict column_names
    (reconcile column_names (map Bs4.get_text_strip cells)) !! k = Some v ->
  exists s, v = PyStr s /\ stripped s.
Proof.
  intros H. apply py_dict_lookup_elem in H.
  apply list_elem_of_lookup in H as [i Hi].
  apply lookup_zip_with_Some in Hi as (x & y & Heq & _ & Hy).
  injection Heq as _ ->.
  rewrite list_lookup_fmap in Hy.
  destruct (reconcile _ _ !! i) as [s|] eqn:Hs; [|done].
  injection Hy as <-. exists s. split; [done|].
  assert (s ∈ reconcile column_names (map Bs4.get_text_strip cells)) as Hin.
  { apply list_elem_of_lookup. eauto. }
  apply elem_of_reconcile in Hin as [Hin| ->]; [|done].
  apply list_elem_of_fmap in Hin as (c & -> & _).
  apply get_text_strip_stripped.
Qed.

Lemma row_dict_present column_names data k :
  k ∈ column_names -> length data = length column_names ->
  exists s, row_dict column_names data !! k = Some (PyStr s).
Proof.
  intros Hk Hlen.
  assert (k ∈ dom (row_dict column_names data)) as Hdom.
  { unfold row_dict. rewrite dom_py_dict, fst_zip.
    - by apply elem_of_list_to_set.
    - rewrite length_map. lia. }
  apply elem_of_dom in Hdom as [v Hv].
  pose proof Hv as Hin. apply py_dict_lookup_elem in Hin.
  apply list_elem_of_lookup in Hin as [i Hi].
  apply lookup_zip_with_Some in Hi as (x & y & Heq & _ & Hy).
  injection Heq as _ ->.
  rewrite list_lookup_fmap in Hy.
  destruct (data !! i) as [s|]; [|done]. injection Hy as <-. eauto.
Qed.

Lemma validate_field_str data alias s :
  data !! alias = Some (PyStr s) ->
  exists s', validate_field data alias = inr s'.
Proof.
  intros H. unfold validate_field. rewrite H. simpl.
  destruct (Str.is_empty (Str.strip s)); eauto.
Qed.

(** [GIEntry] accepts every dictionary that holds a string under each
    alias. *)
Lemma GIEntry_init_accepts data :
  (forall alias, alias ∈ aliases -> exists s, data !! alias = Some (PyStr s)) ->
  exists entry, GIEntry_init data = inr entry.
Proof.
  intros H. unfold GIEntry_init.
  repeat match goal with
         | |- context [match validate_field data ?a with _ => _ end] =>
             let Hs := fresh in
             let Hv := fresh in
             destruct (H a) as [? Hs];
             [unfold aliases;
              repeat first [apply list_elem_of_here
                           |apply list_elem_of_further]|];
             destruct (validate_field_str _ _ _ Hs) as [? Hv];
             rewrite Hv; clear Hs Hv
         end.
  eauto.
Qed.

Lemma accepted_entry_iff column_names row :
  is_Some (accepted_entry column_names row) <->
  Bs4.find_all "td" row <> [] /\
  forall alias, alias ∈ aliases -> alias ∈ column_names.
Proof.
  split.
  - intros [entry H]. split.
    + by apply accepted_entry_Some in H as [? _].
    + by apply (accepted_entry_aliases _ _ _ H).
  - intros [Hcells Haliases]. unfold accepted_entry.
    destruct (Bs4.find_all "td" row) as [|c cells]; [done|].
    destruct (GIEntry_init_accepts
                (row_dict column_names
                   (reconcile column_names
                      (map Bs4.get_text_strip (c :: cells))))) as [entry ->];
      [|by eexists].
    intros alias Hin. apply row_dict_present; [by apply Haliases|].
    apply reconcile_length.
Qed.

(** X2. A body row contributes a record exactly when it has at least one
    [td] cell and every one of the thirteen aliases is among the column
    names: whether a row validates depends on the header list only,
    never on the text of its cells. *)
Theorem row_accepted_iff_aliases_in_headers
    (column_names : list string) (row : Bs4.PageElement) :
  is_Some (accepted_entry column_names row) <->
  Bs4.find_all "td" row <> [] /\
  forall alias, alias ∈ aliases -> alias ∈ column_names.
Proof. apply accepted_entry_iff. Qed.

(** X3. Validation never rejects some rows and accepts others: for a
    given header list, either no row is logged as a validation failure
    and every row with cells gives a record, or no row gives a record. *)
Theorem validation_all_or_nothing (column_names : list string) :
  (forall row,
      row_log column_names row = [] /\
      (Bs4.find_all "td" row <> [] ->
       is_Some (accepted_entry column_names row))) \/
  (forall row, accepted_entry column_names row = None).
Proof.
  destruct (decide (Forall (fun alias => alias ∈ column_names) aliases))
    as [Hall|Hnot].
  - left. intros row.
    assert (Bs4.find_all "td" row <> [] ->
            is_Some (accepted_entry column_names row)) as Hacc.
    { intros Hcells. apply accepted_entry_iff. split; [done|].
      by apply Forall_forall. }
    split; [|done].
    unfold row_log, accepted_entry in *.
    destruct (Bs4.find_all "td" row) as [|c cells]; [done|].
    destruct (GIEntry_init _) as [e|entry]; [|done].
    by destruct Hacc as [? ?].
  - right. intros row.
    apply not_Forall_Exists in Hnot; [|intros ?; apply _].
    apply Exists_exists in Hnot as (alias & Hin & Hmissing).
    by apply (missing_alias_no_entry _ alias).
Qed.

(** X4. The validator never changes what [main] scraped: in the record
    of an accepted row every field holds exactly the string that the
    header-to-value mapping holds under the field's alias (cell text is
    already stripped, so blank text is already the empty string). *)
Theorem accepted_entry_keeps_cell_text
    (column_names : list string) (row : Bs4.PageElement) (entry : GIEntry) :
  accepted_entry column_names row = Some entry ->
  forall alias, alias ∈ aliases ->
    row_dict column_names
      (reconcile column_names
         (map Bs4.get_text_strip (Bs4.find_all "td" row))) !! alias
    = PyStr <$> model_dump entry !! alias.
Proof.
  intros [_ Hinit]%accepted_entry_Some alias Hin.
  destruct (validated_fields _ _ Hinit alias Hin) as (raw & Hraw & Hdump).
  rewrite Hraw, Hdump. simpl.
  destruct (row_dict_values _ _ _ _ Hraw) as (s & [= <-] & Hs).
  destruct (Str.blank raw) eqn:Hblank; [|done].
  by rewrite (stripped_blank _ Hs Hblank).
Qed.

Lemma accepted_entry_keeps_cell_text_witness :
  row_dict aliases
    (reconcile aliases
       (map Bs4.get_text_strip
          (Bs4.find_all "td" (Sample.tr ["Pear"; "  "])))) !! "GI"
  = PyStr <$> model_dump Sample.pear_entry !! "GI".
Proof.
  apply (accepted_entry_keeps_cell_text aliases (Sample.tr ["Pear"; "  "])
           Sample.pear_entry).
  - by vm_compute.
  - apply (bool_decide_unpack _). by vm_compute.
Defined.

(** ** How a run can end *)


(** X6. The writer's check for keys that are no field name never fires
    in [main]: when the run reaches the row loop and the file system
    does not fail, the run ends with status 0, and when some row
    validated it returns after writing the whole text and reporting the
    number of records saved. *)
Theorem scraped_run_on_healthy_disk_succeeds
    (w : World) (column_names : list string) (rows : list Bs4.PageElement) :
  scraped w column_names rows ->
  open_fails w = false ->
  disk_space w = None ->
  let entries := map model_dump (omap (accepted_entry column_names) rows) in
  exit_status (run w).1 = 0%Z /\
  (entries <> [] ->
   (run w).1 = Return tt /\
   gi_data_csv (run w).2 = Some (csv_text column_names entries) /\
   last (stdout (run w).2)
   = Some (SuccessfullySaved (length entries) output_csv)).
Proof.
  intros Hscraped Hopen Hdisk entries.
  rewrite (run_scraped _ _ _ Hscraped). fold entries.
  pose proof (accepted_entries_dom column_names rows) as Hdom.
  fold entries in Hdom.
  destruct entries as [|e es]; [done|].
  rewrite save_csv_spec by done. rewrite Hopen.
  unfold fits. rewrite Hdisk.
  cbn [fst snd exit_status stdout gi_data_csv].
  split; [done|]. intros _. repeat split. apply last_snoc.
Qed.

Lemma scraped_run_on_healthy_disk_succeeds_witness :
  exit_status
    (run (Sample.page [Sample.gi_table aliases
                         [Sample.apple; ["Pear"]]])).1 = 0%Z /\
  last (stdout (run (Sample.page [Sample.gi_table aliases
                                    [Sample.apple; ["Pear"]]])).2)
  = Some (SuccessfullySaved 2 output_csv).
Proof.
  destruct (scraped_run_on_healthy_disk_succeeds
              (Sample.page [Sample.gi_table aliases [Sample.apple; ["Pear"]]])
              aliases [Sample.tr Sample.apple; Sample.tr ["Pear"]])
    as [Hexit Hsaved].
  - eexists _, _, _, _. repeat split; try reflexivity; simpl; lia.
  - reflexivity.
  - reflexivity.
  - split; [exact Hexit|].
    destruct Hsaved as (_ & _ & Hlast).
    + intros H. apply (f_equal length) in H. revert H.
      vm_compute. discriminate.
    + exact Hlast.
Defined.

(** X7. A response whose status is outside 200-299 is reported as an
    HTTP error carrying the status, whatever the page holds: the run
    prints nothing else after the download line, exits with status 1
    and creates no file. An exception of the request itself is reported
    as an HTTP error when it is an [HTTPStatusError] and as a general
    error otherwise. *)
Theorem fetch_failure_report (w : World) :
  (forall response,
      http_get w = inr response ->
      ~ (200 <= status_code response < 300)%nat ->
      run w =
      (SystemExit 1,
       {| stdout := [Downloading url;
                     HttpErrorOccurred
                       (HTTPStatusError (status_code response))];
          gi_data_csv := None |})) /\
  (forall e,
      http_get w = inl e ->
      run w =
      (SystemExit 1,
       {| stdout := [Downloading url;
                     match e with
                     | HTTPStatusError _ => HttpErrorOccurred e
                     | _ => AnErrorOccurred e
                     end];
          gi_data_csv := None |})).
Proof.
  split.
  - intros response Hget Hstatus. by apply run_bad_status.
  - intros e Hget. by apply run_fetch_raises.
Qed.

(** ** What is written for a record *)

(** X8. In the line written for a record, a column whose label is one
    of the aliases holds the record's field (the text the mapping held
    under the label), and a column whose label is no alias holds the
    empty string: the cell text of such a column is not written. *)
Theorem written_values_by_column
    (column_names : list string) (row : Bs4.PageElement) (entry : GIEntry)
    (i : nat) (label : string) :
  accepted_entry column_names row = Some entry ->
  column_names !! i = Some label ->
  (label ∈ aliases ->
   PyStr <$> csv_values column_names (model_dump entry) !! i
   = row_dict column_names
       (reconcile column_names
          (map Bs4.get_text_strip (Bs4.find_all "td" row))) !! label) /\
  (label ∉ aliases ->
   csv_values column_names (model_dump entry) !! i = Some EmptyString).
Proof.
  intros Hrow Hlabel. unfold csv_values.
  rewrite list_lookup_fmap, Hlabel. simpl. split; intros Hin.
  - destruct (accepted_entry_Some _ _ _ Hrow) as [_ Hinit].
    destruct (validated_fields _ _ Hinit label Hin) as (raw & Hraw & Hdump).
    destruct (row_dict_values _ _ _ _ Hraw) as (s & [= <-] & Hs).
    rewrite Hraw, Hdump. simpl.
    destruct (Str.blank raw) eqn:Hblank; [|done].
    by rewrite (stripped_blank _ Hs Hblank).
  - assert (model_dump entry !! label = None) as ->; [|done].
    apply not_elem_of_dom. rewrite model_dump_dom.
    by rewrite elem_of_list_to_set.
Qed.

Lemma written_values_by_column_witness :
  csv_values (aliases ++ ["Notes"]) (model_dump Sample.apple_entry) !! 13%nat
  = Some EmptyString.
Proof.
  apply (proj2 (written_values_by_column
                  (aliases ++ ["Notes"])
                  (Sample.tr (Sample.apple ++ ["tasty"]))
                  Sample.apple_entry 13 "Notes"
                  ltac:(by vm_compute) ltac:(reflexivity))).
  apply (bool_decide_unpack _). by vm_compute.
Defined.

(** ** The model's treatment of its keyword arguments *)










(** ** The loop as a whole *)

Lemma accepted_entry_no_cells column_names row :
  has_cells row = false ->
  accepted_entry column_names row = None /\ row_log column_names row = [].
Proof.
  unfold has_cells, accepted_entry, row_log.
  by destruct (Bs4.find_all "td" row).
Qed.

Lemma omap_filter_cells column_names rows :
  omap (accepted_entry column_names) (List.filter has_cells rows)
  = omap (accepted_entry column_names) rows.
Proof.
  induction rows as [|row rows IH]; [done|]. simpl.
  destruct (has_cells row) eqn:Hrow.
  - simpl. destruct (accepted_entry column_names row); [f_equal|]; exact IH.
  - destruct (accepted_entry_no_cells column_names row Hrow) as [-> _].
    exact IH.
Qed.

Lemma flat_map_filter_cells column_names rows :
  flat_map (row_log column_names) (List.filter has_cells rows)
  = flat_map (row_log column_names) rows.
Proof.
  induction rows as [|row rows IH]; [done|]. simpl.
  destruct (has_cells row) eqn:Hrow.
  - simpl. by rewrite IH.
  - destruct (accepted_entry_no_cells column_names row Hrow) as [_ ->].
    exact IH.
Qed.

(** X11. Rows without any [td] cell are skipped without a trace: the
    loop over all rows ends in the same entries, the same output and the
    same file state as the loop over the rows that have a cell. *)
Theorem rows_without_cells_leave_no_trace
    (column_names : list string) (entries : list (gmap string string))
    (rows : list Bs4.PageElement) (p : Proc) :
  for_each (process_row column_names) entries rows p
  = for_each (process_row column_names) entries
      (List.filter has_cells rows) p.
Proof.
  rewrite !for_each_process_row.
  by rewrite omap_filter_cells, flat_map_filter_cells.
Qed.

Lemma row_accounting column_names row :
  (length (option_list (accepted_entry column_names row))
   + length (List.filter is_validation_failure (row_log column_names row))
   = if has_cells row then 1 else 0)%nat.
Proof.
  unfold accepted_entry, row_log, has_cells.
  destruct (Bs4.find_all "td" row) as [|c cells]; [done|].
  by destruct (GIEntry_init _).
Qed.

Lemma omap_cons_list {A B} (f : A -> option B) (x : A) (l : list A) :
  omap f (x :: l) = option_list (f x) ++ omap f l.
Proof. simpl. by destruct (f x). Qed.

Lemma loop_accounting column_names rows :
  (length (omap (accepted_entry column_names) rows)
   + length (List.filter is_validation_failure
               (flat_map (row_log column_names) rows))
   = length (List.filter has_cells rows))%nat.
Proof.
  induction rows as [|row rows IH]; [done|].
  pose proof (row_accounting column_names row) as Hrow.
  rewrite omap_cons_list, length_app.
  change (flat_map (row_log column_names) (row :: rows))
    with (row_log column_names row ++ flat_map (row_log column_names) rows).
  rewrite List.filter_app, length_app.
  change (List.filter has_cells (row :: rows))
    with (if has_cells row then row :: List.filter has_cells rows
          else List.filter has_cells rows).
  destruct (has_cells row); simpl length; lia.
Qed.

(** X12. Every row that has a cell is either saved or reported, once:
    after the loop, the number of entries added plus the number of
    validation-failure reports printed equals the number of rows with at
    least one [td] cell. *)
Theorem every_row_with_cells_is_saved_or_reported
    (column_names : list string) (entries : list (gmap string string))
    (rows : list Bs4.PageElement) (p : Proc) :
  exists entries' p',
    for_each (process_row column_names) entries rows p
    = (Return entries', p') /\
    (length entries'
     + length (List.filter is_validation_failure (stdout p'))
     = length entries
       + length (List.filter is_validation_failure (stdout p))
       + length (List.filter has_cells rows))%nat.
Proof.
  rewrite for_each_process_row. eexists _, _. split; [reflexivity|].
  cbn [stdout]. rewrite length_app, length_map, List.filter_app, length_app.
  pose proof (loop_accounting column_names rows). lia.
Qed.

(** ** Searching the document *)



(** ** Cells keep their column *)

(** X14. Reconciliation keeps every cell in its column: position [i] of
    the reconciled row holds cell [i] of the row when both the header
    and the row reach that far, the empty string when only the header
    does, and nothing beyond the last header column. *)
Theorem reconcile_lookup (column_names data : list string) (i : nat) :
  reconcile column_names data !! i =
  if decide (i < length column_names)%nat
  then Some (default EmptyString (data !! i))
  else None.
Proof.
  unfold reconcile.
  destruct (Nat.ltb_spec (length data) (length column_names)) as [Hlt|Hge].
  - case_decide as Hi.
    + destruct (decide (i < length data)%nat) as [Hd|Hd].
      * rewrite lookup_app_l by done.
        destruct (lookup_lt_is_Some_2 data i Hd) as [x Hx]. by rewrite Hx.
      * rewrite lookup_app_r by lia.
        rewrite lookup_replicate_2 by lia.
        by rewrite (lookup_ge_None_2 data i) by lia.
    + apply lookup_ge_None_2. rewrite length_app, length_replicate. lia.
  - destruct (Nat.ltb_spec (length column_names) (length data)) as [Hlt|Hle].
    + case_decide as Hi.
      * rewrite lookup_take_lt by done.
        destruct (lookup_lt_is_Some_2 data i ltac:(lia)) as [x Hx].
        by rewrite Hx.
      * apply lookup_take_ge. lia.
    + case_decide as Hi.
      * destruct (lookup_lt_is_Some_2 data i ltac:(lia)) as [x Hx].
        by rewrite Hx.
      * apply lookup_ge_None_2. lia.
Qed.

Lemma fetch_failure_report_witness :
  run {| http_get :=
           inr {| status_code := 404;
                  soup := Sample.document
                            [Sample.gi_table aliases [Sample.apple]] |};
         open_fails := false;
         disk_space := None |}
  = (SystemExit 1,
     {| stdout := [Downloading url; HttpErrorOccurred (HTTPStatusError 404)];
        gi_data_csv := None |}).
Proof.
  apply (proj1 (fetch_failure_report
                  {| http_get :=
                       inr {| status_code := 404;
                              soup := Sample.document
                                        [Sample.gi_table aliases
                                           [Sample.apple]] |};
                     open_fails := false;
                     disk_space := None |})
           {| status_code := 404;
              soup := Sample.document
                        [Sample.gi_table aliases [Sample.apple]] |}).
  - reflexivity.
  - simpl. lia.
Defined.

(** X15. An exit status of 0 never goes with a partial file: when a run
    ends with status 0 the table with its header and body sections was
    found, and either no row validated and no file was created, or the
    file holds the complete text of the header and of every validated
    row. *)
Theorem exit_0_means_no_file_or_whole_file (w : World) :
  exit_status (run w).1 = 0%Z ->
  exists column_names rows,
    scraped w column_names rows /\
    let entries :=
      map model_dump (omap (accepted_entry column_names) rows) in
    (entries = [] /\ gi_data_csv (run w).2 = None) \/
    (entries <> [] /\
     gi_data_csv (run w).2 = Some (csv_text column_names entries)).
Proof.
  destruct (http_get w) as [e|response] eqn:Hget.
  { by rewrite (run_fetch_raises _ _ Hget). }
  destruct (decide (200 <= status_code response < 300)%nat) as [Hstatus|Hstatus];
    [|by rewrite (run_bad_status _ _ Hget Hstatus)].
  destruct (Bs4.find_by_id "table" "tablepress-1" (soup response))
    as [table|] eqn:Htable;
    [|by rewrite (run_no_table _ _ Hget Hstatus Htable)].
  destruct (Bs4.find "thead" table) as [thead|] eqn:Hthead; cycle 1.
  { by destruct (run_malformed_table _ _ _ Hget Hstatus Htable
                   (or_introl Hthead)) as [log ->]. }
  destruct (Bs4.find "tbody" table) as [tbody|] eqn:Htbody; cycle 1.
  { by destruct (run_malformed_table _ _ _ Hget Hstatus Htable
                   (or_intror Htbody)) as [log ->]. }
  assert (scraped w (map Bs4.get_text_strip (Bs4.find_all "th" thead))
            (Bs4.find_all "tr" tbody)) as Hscraped
    by by exists response, table, thead, tbody.
  intros Hexit. eexists _, _. split; [exact Hscraped|].
  revert Hexit. rewrite (run_scraped _ _ _ Hscraped).
  pose proof (accepted_entries_dom
                (map Bs4.get_text_strip (Bs4.find_all "th" thead))
                (Bs4.find_all "tr" tbody)) as Hdom.
  destruct (map model_dump _) as [|e es]; [by left|].
  rewrite save_csv_spec by done.
  destruct (open_fails w); [done|].
  destruct (fits w _); [|done]. by right.
Qed.

Lemma exit_0_means_no_file_or_whole_file_witness :
  exists column_names rows,
    scraped (Sample.page [Sample.gi_table aliases [Sample.apple]])
      column_names rows /\
    let entries :=
      map model_dump (omap (accepted_entry column_names) rows) in
    (entries = [] /\
     gi_data_csv
       (run (Sample.page [Sample.gi_table aliases [Sample.apple]])).2 = None)
    \/
    (entries <> [] /\
     gi_data_csv
       (run (Sample.page [Sample.gi_table aliases [Sample.apple]])).2
     = Some (csv_text column_names entries)).
Proof.
  apply (exit_0_means_no_file_or_whole_file
           (Sample.page [Sample.gi_table aliases [Sample.apple]])).
  reflexivity.
Defined.

(** X16. The validator replaces a string by the empty string exactly
    when the string is empty or made of white space only; every other
    string is kept as it is, white space around it included, and [None]
    is passed on. Applying it twice is applying it once. *)
Theorem empty_to_none_blank_only (v : pyval) :
  empty_to_none v =
    match v with
    | PyStr s => PyStr (if Str.blank s then EmptyString else s)
    | PyNone => PyNone
    end /\
  empty_to_none (empty_to_none v) = empty_to_none v.
Proof.
  assert (forall u, empty_to_none u =
            match u with
            | PyStr s => PyStr (if Str.blank s then EmptyString else s)
            | PyNone => PyNone
            end) as Heq.
  { intros [s|]; [|done]. simpl. rewrite strip_empty_blank.
    by destruct (Str.blank s). }
  split; [apply Heq|]. rewrite !Heq. destruct v as [s|]; [|done].
  destruct (Str.blank s) eqn:Hs; [done|]. by rewrite Hs.
Qed.
